(** * check_x509_expire: the certificate-expiry check, embedded in Rocq

    A shallow embedding of [check_x509_expire.py] and the properties of its
    validity evaluation, argument validation and failure classification.

    Conventions of the embedding.
    - The script is read with the semantics of Python 3 (3.6 or later):
      [int] is unbounded, [/] is true division, [subprocess] pipes deliver
      [bytes], [timedelta] has the method [total_seconds].
    - A [datetime] is the number of microseconds since 0001-01-01T00:00:00 and
      a [timedelta] a signed number of microseconds, both in [Z].  The
      constructor [datetime.timedelta(days=n)] raises [OverflowError] when
      [n] is outside [-999999999, 999999999]; this is written out.
    - [print] and [subprocess.Popen] are recorded as events of a trace, in
      program order.  A [print] whose text the source gives literally carries
      that text; a [print] that formats run-time objects ([bytes], [datetime],
      [float], exceptions) carries the objects.
    - [sys.exit] raises [SystemExit]; the handler [except Exception] of the
      main block does not catch it.
    - The Python [float] of [days_remaining] is idealised as a rational in
      [Q]: the rounding of binary64 arithmetic is not part of the model. *)

From Stdlib Require Import ZArith QArith Bool List String Ascii Lia.
From Stdlib Require Import DecimalString DecimalPos.
Import ListNotations.

Local Open Scope string_scope.
Local Open Scope Z_scope.

(** ** Status codes (source lines 36-46) *)

Definition STATUS_OK : Z := 0.
Definition STATUS_WARNING : Z := 1.
Definition STATUS_CRITICAL : Z := 2.
Definition STATUS_UNKNOWN : Z := 3.

(** ** Python values that occur in the script *)

Definition datetime := Z.
Definition timedelta := Z.

(** Exceptions that can be raised on the modelled paths.  [SystemExit] is
    kept apart from the subclasses of [Exception]. *)
Inductive py_exception : Type :=
| ValueError
| OverflowError
| UnicodeDecodeError
| KeyError.

Inductive raised : Type :=
| SystemExit (code : Z)
| Error (ex : py_exception).

(** ** Observable events *)

Inductive event : Type :=
| Print (text : string)
    (* print(<literal text>) *)
| PrintBytes (raw : string)
    (* print(stdout), line 147 *)
| PrintFailed (cmd raw_out raw_err : string)
    (* print('Failed to execute %s %s %s' % ...), lines 170-171 *)
| PrintStatus (prefix : string) (after : datetime)
              (before : option datetime) (days : Q)
    (* the status line with its performance data, lines 184-189 *)
| PrintUnhandled (prog : string) (ex : py_exception)
    (* the three reports of the catch-all handler, lines 220-222 *)
| Popen (cmd : string).
    (* subprocess.Popen(cmd, shell=True, ...) with communicate(), 130-132 *)

Definition trace := list event.

(** ** The monad of the script: an event log and exceptions *)

Inductive result (A : Type) : Type :=
| Return (a : A)
| Raise (e : raised).
Arguments Return {A} a.
Arguments Raise {A} e.

Definition M (A : Type) : Type := (trace * result A)%type.

Definition ret {A} (a : A) : M A := ([], Return a).

Definition bind {A B} (m : M A) (f : A -> M B) : M B :=
  match m with
  | (t, Return a) => let (t', r) := f a in ((t ++ t')%list, r)
  | (t, Raise e) => (t, Raise e)
  end.

Definition raise {A} (ex : py_exception) : M A := ([], Raise (Error ex)).

Definition emit (e : event) : M unit := ([e], Return tt).

Definition print (text : string) : M unit := emit (Print text).

(** [sys.exit(code)]: never returns. *)
Definition sys_exit {A} (code : Z) : M A := ([], Raise (SystemExit code)).

(** [try: body  except Exception as ex: handler(ex)] *)
Definition try_except {A} (body : M A) (handler : py_exception -> M A) : M A :=
  match body with
  | (t, Raise (Error ex)) => let (t', r) := handler ex in ((t ++ t')%list, r)
  | other => other
  end.

Declare Scope py_scope.
Delimit Scope py_scope with py.
Notation "x <- m ;; k" := (bind m (fun x => k))
  (at level 100, m at next level, right associativity) : py_scope.
Notation "m ;; k" := (bind m (fun _ => k))
  (at level 100, right associativity) : py_scope.
Local Open Scope py_scope.

(** The events a computation logged and the way it ended. *)
Definition output {A} (m : M A) : trace := fst m.
Definition outcome {A} (m : M A) : result A := snd m.

(** The exit status the operating system sees, when the computation is the
    whole process: the code of [SystemExit]; 2 for any other exception, as
    the catch-all handler of the main block exits with [STATUS_CRITICAL]
    (lines 219-223); 0 when the interpreter runs off the end. *)
Definition process_status {A} (m : M A) : Z :=
  match outcome m with
  | Raise (SystemExit code) => code
  | Raise (Error _) => STATUS_CRITICAL
  | Return _ => 0
  end.

(** ** [usage] (lines 49-57) *)

Definition tab : string := String "009"%char EmptyString.
Definition newline : string := String "010"%char EmptyString.

Definition usage_text (prog : string) : trace :=
  [ Print ("Usage: " ++ prog ++ " -s server -p port -w days -c days"
           ++ " [-t <protocol>]");
    Print (tab ++ "-s server      server name");
    Print (tab ++ "-p port        port");
    Print (tab ++ "-w days        warning threshold");
    Print (tab ++ "-c days        critical threshold");
    Print (tab ++ "-t proto       starttls protocol") ].

Definition usage {A} (prog : string) : M A :=
  print ("Usage: " ++ prog ++ " -s server -p port -w days -c days"
         ++ " [-t <protocol>]") ;;
  print (tab ++ "-s server      server name") ;;
  print (tab ++ "-p port        port") ;;
  print (tab ++ "-w days        warning threshold") ;;
  print (tab ++ "-c days        critical threshold") ;;
  print (tab ++ "-t proto       starttls protocol") ;;
  sys_exit STATUS_UNKNOWN.

(** ** [int(s)] on an argument string

    Python 3 on ASCII text: surrounding whitespace (the characters 9 to 13
    and the space) is stripped, one sign is allowed, then decimal digits,
    where single underscores may separate digits.  [None] stands for
    [ValueError].  Text with non-ASCII digits, which Python also accepts, is
    rejected by this model, and the limit that recent versions put on the
    number of digits is left out. *)

Definition is_space (c : ascii) : bool :=
  let n := nat_of_ascii c in
  ((9 <=? n)%nat && (n <=? 13)%nat) || (n =? 32)%nat.

Definition digit_of (c : ascii) : option Z :=
  let n := nat_of_ascii c in
  if (48 <=? n)%nat && (n <=? 57)%nat then Some (Z.of_nat (n - 48)) else None.

Fixpoint lstrip (s : string) : string :=
  match s with
  | EmptyString => EmptyString
  | String c s' => if is_space c then lstrip s' else s
  end.

Fixpoint rstrip (s : string) : string :=
  match s with
  | EmptyString => EmptyString
  | String c s' =>
      match rstrip s' with
      | EmptyString => if is_space c then EmptyString
                       else String c EmptyString
      | r => String c r
      end
  end.

Inductive digit_state : Type := NeedDigit | AfterDigit.

Fixpoint digits (st : digit_state) (acc : Z) (s : string) : option Z :=
  match s with
  | EmptyString =>
      match st with AfterDigit => Some acc | NeedDigit => None end
  | String c s' =>
      match digit_of c with
      | Some d => digits AfterDigit (10 * acc + d) s'
      | None =>
          match st with
          | AfterDigit => if Ascii.eqb c "_" then digits NeedDigit acc s'
                          else None
          | NeedDigit => None
          end
      end
  end.

Definition py_int (s : string) : option Z :=
  match lstrip (rstrip s) with
  | String "-" s' => option_map Z.opp (digits NeedDigit 0 s')
  | String "+" s' => digits NeedDigit 0 s'
  | s' => digits NeedDigit 0 s'
  end.

(** ** [parse_args] (lines 60-119) *)

Record args_dict : Type := mk_args {
  server : option string;
  port : option Z;
  warning : option Z;
  critical : option Z;
  starttls : option string
}.

(** The dictionary of lines 61-67. *)
Definition empty_args : args_dict := mk_args None None None None None.

Definition set_server (v : string) (d : args_dict) : args_dict :=
  mk_args (Some v) (port d) (warning d) (critical d) (starttls d).
Definition set_port (v : Z) (d : args_dict) : args_dict :=
  mk_args (server d) (Some v) (warning d) (critical d) (starttls d).
Definition set_warning (v : Z) (d : args_dict) : args_dict :=
  mk_args (server d) (port d) (Some v) (critical d) (starttls d).
Definition set_critical (v : Z) (d : args_dict) : args_dict :=
  mk_args (server d) (port d) (warning d) (Some v) (starttls d).
Definition set_starttls (v : string) (d : args_dict) : args_dict :=
  mk_args (server d) (port d) (warning d) (critical d) (Some v).

(** The [while] loop of lines 69-118.  [rest] is [sys.argv[i:]] at the head
    of an iteration and [d] the dictionary built so far: an option with a
    value advances by two tokens, any other token by one.  After a
    diagnostic, [usage] exits, so the loop is not resumed. *)
Fixpoint parse_loop (prog : string) (rest : list string) (d : args_dict)
  : M args_dict :=
  match rest with
  | [] => ret d
  | arg :: rest' =>
      if (arg =? "-s")%string then
        match rest' with
        | v :: rest'' => parse_loop prog rest'' (set_server v d)
        | [] => print "-s requires a value, server" ;; usage prog
        end
      else if (arg =? "-p")%string then
        match rest' with
        | v :: rest'' =>
            match py_int v with
            | Some n => parse_loop prog rest'' (set_port n d)
            | None => print "-p port must be an integer" ;; usage prog
            end
        | [] => print "-p requires a value, port" ;; usage prog
        end
      else if (arg =? "-w")%string then
        match rest' with
        | v :: rest'' =>
            match py_int v with
            | Some n => parse_loop prog rest'' (set_warning n d)
            | None => print "-w days must be an integer" ;; usage prog
            end
        | [] => print "-w requires a value, days" ;; usage prog
        end
      else if (arg =? "-c")%string then
        match rest' with
        | v :: rest'' =>
            match py_int v with
            | Some n => parse_loop prog rest'' (set_critical n d)
            | None => print "-c days must be an integer" ;; usage prog
            end
        | [] => print "-c requires a value, days" ;; usage prog
        end
      else if (arg =? "-t")%string then
        match rest' with
        | v :: rest'' => parse_loop prog rest'' (set_starttls v d)
        | [] => print "-s requires a value, starttls protocol" ;; usage prog
        end
      else parse_loop prog rest' d
  end.

(** [sys.argv] is [prog :: args]; the loop starts at index 1. *)
Definition parse_args (prog : string) (args : list string) : M args_dict :=
  parse_loop prog args empty_args.

(** ** [datetime.timedelta(days=n)]

    [timedelta.max] is 999999999 days (and a fraction), [timedelta.min] is
    -999999999 days; the constructor raises [OverflowError] beyond. *)

Definition MAX_DELTA_DAYS : Z := 999999999.
Definition US_PER_DAY : Z := 86400000000.

Definition delta_ok (n : Z) : bool :=
  (- MAX_DELTA_DAYS <=? n) && (n <=? MAX_DELTA_DAYS).

Definition timedelta_days (n : Z) : M timedelta :=
  if delta_ok n then ret (n * US_PER_DAY) else raise OverflowError.

(** The normalised fields of a [timedelta]: [0 <= seconds < 86400] and
    [0 <= microseconds < 10**6]; [days] carries the sign. *)
Definition td_days (td : timedelta) : Z := td / US_PER_DAY.
Definition td_seconds (td : timedelta) : Z := (td mod US_PER_DAY) / 1000000.
Definition td_microseconds (td : timedelta) : Z := td mod 1000000.

(** [timedelta.total_seconds()]. *)
Definition total_seconds (td : timedelta) : Q :=
  inject_Z td / inject_Z (10 ^ 6).

(** [hasattr(time_remaining, 'total_seconds')] at line 177: the method is
    present from Python 2.7 and Python 3.2 on.  The other branch of the
    conditional is kept in [time_remaining_sec], with the true division of
    Python 3; it computes the same seconds. *)
Definition hasattr_total_seconds : bool := true.

(** ** [exit_with_perf_data] (lines 175-190) *)

Definition PREFIXES (code : Z) : option string :=
  if code =? STATUS_OK then Some "OK"
  else if code =? STATUS_WARNING then Some "WARNING"
  else if code =? STATUS_CRITICAL then Some "CRITICAL"
  else if code =? STATUS_UNKNOWN then Some "UNKNOWN"
  else None.

(** Lines 177-182. *)
Definition time_remaining_sec (time_remaining : timedelta) : Q :=
  if hasattr_total_seconds then total_seconds time_remaining
  else (inject_Z (td_microseconds time_remaining
                  + (td_seconds time_remaining
                     + td_days time_remaining * 24 * 3600) * 10 ^ 6)
        / inject_Z (10 ^ 6))%Q.

(** Line 183. *)
Definition perf_data_days (time_remaining : timedelta) : Q :=
  time_remaining_sec time_remaining / inject_Z 60 / inject_Z 60 / inject_Z 24.

Arguments total_seconds td%_Z.
Arguments time_remaining_sec time_remaining%_Z.
Arguments perf_data_days time_remaining%_Z.

(** [before] is [None] or a [datetime]; a [datetime] is always true in a
    condition, so the clause [Not valid until] is printed exactly when
    [before] was passed. *)
Definition exit_with_perf_data {A} (after cur_time : datetime) (exit_code : Z)
    (before : option datetime) : M A :=
  let time_remaining := after - cur_time in
  match PREFIXES exit_code with
  | Some prefix =>
      emit (PrintStatus prefix after before (perf_data_days time_remaining)) ;;
      sys_exit exit_code
  | None => raise KeyError
  end.

(** ** The validity evaluation of [run] (lines 153-168)

    [cur_time] is the value [datetime.datetime.utcnow()] returned at line
    153. *)
Definition evaluate {A} (before after cur_time : datetime)
    (warning critical : Z) : M A :=
  if before <=? cur_time then
    if after >=? cur_time then
      (tw <- timedelta_days warning ;;
       if after - cur_time <=? tw then
         (tc <- timedelta_days critical ;;
          if after - cur_time <=? tc then
            exit_with_perf_data after cur_time STATUS_CRITICAL None
          else
            exit_with_perf_data after cur_time STATUS_WARNING None)
       else
         exit_with_perf_data after cur_time STATUS_OK None)
    else
      (print "Certificate in no longer valid" ;;
       exit_with_perf_data after cur_time STATUS_CRITICAL None)
  else
    (print "Certificate is not yet valid" ;;
     exit_with_perf_data after cur_time STATUS_CRITICAL (Some before)).

(** ** The certificate fetch of [run] (lines 122-152, 169-172) *)

(** What [proc.communicate()] and [proc.returncode] deliver. *)
Record completed : Type := mk_completed {
  returncode : Z;
  stdout : string;
  stderr : string
}.

Fixpoint strip_prefix (p s : string) : option string :=
  match p with
  | EmptyString => Some s
  | String c p' =>
      match s with
      | String c' s' => if Ascii.eqb c c' then strip_prefix p' s' else None
      | EmptyString => None
      end
  end.

(** The text up to the first line feed, and the text after that line feed:
    what a greedy group of [.] followed by a line feed consumes and leaves,
    as [.] matches every character but the line feed. *)
Fixpoint split_line (s : string) : option (string * string) :=
  match s with
  | EmptyString => None
  | String c s' =>
      if Ascii.eqb c "010" then Some (EmptyString, s')
      else match split_line s' with
           | Some (line, rest) => Some (String c line, rest)
           | None => None
           end
  end.

(** [regex.match(text)] for the pattern of lines 134-135, anchored at the
    start of [text]: the groups [before] and [after] of a match. *)
Definition regex_match (text : string) : option (string * string) :=
  match strip_prefix "notBefore=" text with
  | None => None
  | Some r1 =>
      match split_line r1 with
      | None => None
      | Some (before, r2) =>
          match strip_prefix "notAfter=" r2 with
          | None => None
          | Some r3 =>
              match split_line r3 with
              | None => None
              | Some (after, _) => Some (before, after)
              end
          end
      end
  end.

(** [str(n)] for an [int]. *)
Definition str_of_int (n : Z) : string := NilZero.string_of_int (Z.to_int n).

(** The command line of lines 124-129.  An absent or empty [starttls] is
    false in the conditional expression. *)
Definition openssl_cmd (server : string) (port : Z) (starttls : option string)
  : string :=
  "echo"
  ++ " | openssl s_client -crlf "
  ++ match starttls with
     | Some (String c proto) => "-starttls " ++ String c proto ++ " "
     | _ => EmptyString
     end
  ++ "-servername " ++ server
  ++ " -connect " ++ server ++ ":" ++ str_of_int port ++ " 2>/dev/null"
  ++ " | openssl x509 -noout -dates".

(** The values [run] is called with at lines 215-217. *)
Record run_call : Type := mk_call {
  call_server : string;
  call_port : Z;
  call_warning : Z;
  call_critical : Z;
  call_starttls : option string
}.

Definition help_requested (prog : string) (args : list string) : bool :=
  (List.length (prog :: args) =? 1)%nat
  || existsb (String.eqb "-h") (prog :: args)
  || existsb (String.eqb "--help") (prog :: args).

(** Lines 198-214: the parsed arguments and the five checks on them.  Each
    failed check prints its diagnostic and calls [usage], which exits. *)
Definition checked_args (prog : string) (args : list string) : M run_call :=
  ARGS <- parse_args prog args ;;
  match server ARGS with
  | None => print "Server must be provided" ;; usage prog
  | Some s =>
  match port ARGS with
  | None => print "Port must be provided" ;; usage prog
  | Some p =>
  match warning ARGS with
  | None => print "Warning days must be provided" ;; usage prog
  | Some w =>
  match critical ARGS with
  | None => print "Critical days must be provided" ;; usage prog
  | Some c =>
      if w <? c then
        print ("Warning days must be greater than or equal"
               ++ " to critical days") ;;
        usage prog
      else ret (mk_call s p w c (starttls ARGS))
  end end end end.

(** The catch-all handler of lines 219-223. *)
Definition unhandled {A} (prog : string) (ex : py_exception) : M A :=
  emit (PrintUnhandled prog ex) ;; sys_exit STATUS_CRITICAL.

Section Environment.

(** The library and the world the script runs in. *)

(** [datetime.datetime.strptime(s, "%b %d %H:%M:%S %Y %Z")]; [None] stands
    for [ValueError]. *)
Variable strptime : string -> option datetime.

(** [bytes.decode('utf-8')]; [None] stands for [UnicodeDecodeError]. *)
Variable utf8_decode : string -> option string.

(** The completed shell pipeline for a command line. *)
Variable communicate : string -> completed.

(** [datetime.datetime.utcnow()] at line 153. *)
Variable utcnow : datetime.

(** [run] (lines 122-172). *)
Definition run {A} (server : string) (port : Z) (warning critical : Z)
    (starttls : option string) : M A :=
  let cmd := openssl_cmd server port starttls in
  emit (Popen cmd) ;;
  let proc := communicate cmd in
  if returncode proc =? 0 then
    match utf8_decode (stdout proc) with
    | None => raise UnicodeDecodeError
    | Some text =>
        match regex_match text with
        | Some (b, a) =>
            match strptime b with
            | None => raise ValueError
            | Some before =>
                match strptime a with
                | None => raise ValueError
                | Some after =>
                    evaluate before after utcnow warning critical
                end
            end
        | None =>
            emit (PrintBytes (stdout proc)) ;;
            print "Unexpected number of certificates" ;;
            sys_exit STATUS_CRITICAL
        end
    end
  else
    (emit (PrintFailed cmd (stdout proc) (stderr proc)) ;;
     sys_exit STATUS_CRITICAL).

(** The main block (lines 193-223). *)
Definition main {A} (prog : string) (args : list string) : M A :=
  try_except
    (if help_requested prog args then usage prog
     else
       (a <- checked_args prog args ;;
        run (call_server a) (call_port a) (call_warning a)
            (call_critical a) (call_starttls a)))
    (unhandled prog).

End Environment.

(** ** Definitions of the specification, for comparison with the code *)

(** The flat decision procedure of the specification (section 4.2), in its
    words: not yet valid, else expired, else within [critical] days, else
    within [warning] days, else OK.  The comparisons are those of the
    specification, on durations. *)
Definition evaluate_flat {A} (before after cur_time : datetime)
    (warning critical : Z) : M A :=
  let remaining := after - cur_time in
  if cur_time <? before then
    (print "Certificate is not yet valid" ;;
     exit_with_perf_data after cur_time STATUS_CRITICAL (Some before))
  else if cur_time >? after then
    (print "Certificate in no longer valid" ;;
     exit_with_perf_data after cur_time STATUS_CRITICAL None)
  else if remaining <=? critical * US_PER_DAY then
    exit_with_perf_data after cur_time STATUS_CRITICAL None
  else if remaining <=? warning * US_PER_DAY then
    exit_with_perf_data after cur_time STATUS_WARNING None
  else
    exit_with_perf_data after cur_time STATUS_OK None.

(** A text without a line feed: what a group of [.] can match. *)
Fixpoint no_line_feed (s : string) : bool :=
  match s with
  | EmptyString => true
  | String c s' => negb (Ascii.eqb c "010") && no_line_feed s'
  end.

(** The five option tokens [parse_args] knows. *)
Definition is_option (tok : string) : bool :=
  existsb (String.eqb tok) ["-s"; "-p"; "-w"; "-c"; "-t"].

(** A value that the option [opt] takes without a diagnostic: any text for
    [-s] and [-t], text that [int] accepts for [-p], [-w] and [-c]. *)
Definition value_ok (opt v : string) : bool :=
  if ((opt =? "-p") || (opt =? "-w") || (opt =? "-c"))%string
  then match py_int v with Some _ => true | None => false end
  else true.

(** A threshold that [datetime.timedelta(days=...)] accepts. *)
Definition in_delta_range (n : Z) : Prop :=
  - MAX_DELTA_DAYS <= n <= MAX_DELTA_DAYS.

(** Events of the certificate fetch and of the verdict. *)
Definition is_popen (e : event) : bool :=
  match e with Popen _ => true | _ => false end.
Definition is_status_line (e : event) : bool :=
  match e with PrintStatus _ _ _ _ => true | _ => false end.

(** ** Sample values for the examples *)

(** Midnight of a proleptic Gregorian day, by its ordinal (day 1 is
    0001-01-01), for the examples: 737425 is 2020-01-01 and 741078 is
    2030-01-01. *)
Definition midnight (ordinal : Z) : datetime := (ordinal - 1) * US_PER_DAY.

(** The two lines [openssl x509 -noout -dates] prints for a certificate
    valid from 2020-01-01 to 2030-01-01. *)
Definition sample_dates : string :=
  "notBefore=Jan  1 00:00:00 2020 GMT" ++ newline
  ++ "notAfter=Jan  1 00:00:00 2030 GMT" ++ newline.

Definition sample_strptime (s : string) : option datetime :=
  if (s =? "Jan  1 00:00:00 2020 GMT")%string then Some (midnight 737425)
  else if (s =? "Jan  1 00:00:00 2030 GMT")%string then Some (midnight 741078)
  else None.

(** Decoding of ASCII bytes. *)
Definition ascii_decode (raw : string) : option string := Some raw.

(** A server that presents the sample certificate, one that refuses the
    connection, and one whose certificate the tool prints in another
    order. *)
Definition sample_server (cmd : string) : completed :=
  mk_completed 0 sample_dates EmptyString.
Definition refusing_server (cmd : string) : completed :=
  mk_completed 1 EmptyString "unable to load certificate".

Definition sample_prog : string := "check_x509_expire.py".

(** * Properties *)

(** ** [int] on sample argument strings *)

Example py_int_plain : py_int "443" = Some 443.
Proof. reflexivity. Qed.
Example py_int_signed : py_int " -7 " = Some (-7).
Proof. reflexivity. Qed.
Example py_int_grouped : py_int "+1_000" = Some 1000.
Proof. reflexivity. Qed.
Example py_int_rejects :
  map py_int ["1__0"; "_1"; "1_"; "- 7"; "-"; "0x10"; "1 2"; "12a"]
  = [None; None; None; None; None; None; None; None].
Proof. reflexivity. Qed.

(** ** The monad *)

Lemma bind_ret {A B} (a : A) (f : A -> M B) : bind (ret a) f = f a.
Proof. unfold bind, ret. destruct (f a); reflexivity. Qed.

Lemma bind_returned {A B} (a : A) (f : A -> M B) :
  bind ([], Return a) f = f a.
Proof. apply bind_ret. Qed.

Lemma bind_emit {B} (e : event) (f : unit -> M B) :
  bind (emit e) f = (e :: output (f tt), outcome (f tt)).
Proof. unfold bind, emit, output, outcome. destruct (f tt); reflexivity. Qed.

Lemma bind_raise {A B} (t : trace) (e : raised) (f : A -> M B) :
  bind (t, Raise e) f = (t, Raise e).
Proof. reflexivity. Qed.

Lemma try_except_exit {A} (t : trace) (code : Z) (h : py_exception -> M A) :
  try_except (t, Raise (SystemExit code)) h = (t, Raise (SystemExit code)).
Proof. reflexivity. Qed.

(** ** [usage], [timedelta] and the status line *)

Lemma usage_exits {A} (prog : string) :
  usage (A:=A) prog = (usage_text prog, Raise (SystemExit STATUS_UNKNOWN)).
Proof. reflexivity. Qed.

Lemma delta_ok_spec (n : Z) : delta_ok n = true <-> in_delta_range n.
Proof.
  unfold delta_ok, in_delta_range.
  rewrite andb_true_iff, !Z.leb_le. reflexivity.
Qed.

Lemma timedelta_days_in_range (n : Z) :
  in_delta_range n -> timedelta_days n = ret (n * US_PER_DAY).
Proof.
  intros Hn. apply delta_ok_spec in Hn.
  unfold timedelta_days. rewrite Hn. reflexivity.
Qed.

Lemma timedelta_days_overflow (n : Z) :
  ~ in_delta_range n -> timedelta_days n = raise OverflowError.
Proof.
  intros Hn. unfold timedelta_days.
  destruct (delta_ok n) eqn:E; [|reflexivity].
  apply delta_ok_spec in E. contradiction.
Qed.

Lemma exit_critical {A} after now before :
  exit_with_perf_data (A:=A) after now STATUS_CRITICAL before =
  ([PrintStatus "CRITICAL" after before (perf_data_days (after - now))],
   Raise (SystemExit STATUS_CRITICAL)).
Proof. reflexivity. Qed.

Lemma exit_warning {A} after now before :
  exit_with_perf_data (A:=A) after now STATUS_WARNING before =
  ([PrintStatus "WARNING" after before (perf_data_days (after - now))],
   Raise (SystemExit STATUS_WARNING)).
Proof. reflexivity. Qed.

Lemma exit_ok {A} after now before :
  exit_with_perf_data (A:=A) after now STATUS_OK before =
  ([PrintStatus "OK" after before (perf_data_days (after - now))],
   Raise (SystemExit STATUS_OK)).
Proof. reflexivity. Qed.

(** The evaluation inside the validity window, when both thresholds are in
    the range of [timedelta]. *)
Lemma evaluate_window {A} before after now warning critical :
  before <= now <= after ->
  in_delta_range warning -> in_delta_range critical ->
  evaluate (A:=A) before after now warning critical =
    if after - now <=? warning * US_PER_DAY then
      if after - now <=? critical * US_PER_DAY then
        exit_with_perf_data after now STATUS_CRITICAL None
      else exit_with_perf_data after now STATUS_WARNING None
    else exit_with_perf_data after now STATUS_OK None.
Proof.
  intros [Hb Ha] Hw Hc. unfold evaluate.
  apply Z.leb_le in Hb. rewrite Hb.
  apply Z.geb_le in Ha. rewrite Ha.
  rewrite (timedelta_days_in_range _ Hw), bind_ret.
  destruct (after - now <=? warning * US_PER_DAY); [|reflexivity].
  rewrite (timedelta_days_in_range _ Hc), bind_ret. reflexivity.
Qed.

(** The exit status of the evaluation, on every input, as a decision tree
    over the comparisons of lines 154-157. *)
Lemma process_status_evaluate {A} before after now warning critical :
  process_status (evaluate (A:=A) before after now warning critical) =
    if before <=? now then
      if after >=? now then
        if delta_ok warning then
          if after - now <=? warning * US_PER_DAY then
            if delta_ok critical then
              if after - now <=? critical * US_PER_DAY then STATUS_CRITICAL
              else STATUS_WARNING
            else STATUS_CRITICAL
          else STATUS_OK
        else STATUS_CRITICAL
      else STATUS_CRITICAL
    else STATUS_CRITICAL.
Proof.
  unfold evaluate, timedelta_days.
  destruct (before <=? now); [|reflexivity].
  destruct (after >=? now); [|reflexivity].
  destruct (delta_ok warning); [|reflexivity].
  rewrite bind_ret.
  destruct (after - now <=? warning * US_PER_DAY); [|reflexivity].
  destruct (delta_ok critical); [|reflexivity].
  rewrite bind_ret.
  destruct (after - now <=? critical * US_PER_DAY); reflexivity.
Qed.

(** ** The reported number of days *)

Lemma timedelta_fields (td : timedelta) :
  td_microseconds td + (td_seconds td + td_days td * 24 * 3600) * 10 ^ 6 = td.
Proof.
  unfold td_microseconds, td_seconds, td_days, US_PER_DAY.
  change (10 ^ 6) with 1000000.
  Z.to_euclidean_division_equations. lia.
Qed.

(** Both branches of lines 177-182 compute the same number of seconds. *)
Lemma time_remaining_sec_fallback (td : timedelta) :
  (inject_Z (td_microseconds td
             + (td_seconds td + td_days td * 24 * 3600) * 10 ^ 6)
   / inject_Z (10 ^ 6))%Q = total_seconds td.
Proof. rewrite timedelta_fields. reflexivity. Qed.



Lemma perf_data_days_negative (td : timedelta) :
  (perf_data_days td < 0)%Q <-> td < 0.
Proof.
  unfold perf_data_days, time_remaining_sec, hasattr_total_seconds,
    total_seconds.
  change (10 ^ 6) with 1000000.
  unfold Qlt, Qdiv, Qmult, Qinv, inject_Z. simpl. lia.
Qed.

(** ** The validity evaluation *)

(** Scenarios 1 to 4 of the specification. *)
Example scenario_ok :
  evaluate (A:=unit) (midnight 737425) (midnight 741078) (midnight 737791) 30 7
  = ([PrintStatus "OK" (midnight 741078) None
        (perf_data_days (3287 * US_PER_DAY))],
     Raise (SystemExit STATUS_OK)).
Proof. reflexivity. Qed.

Example scenario_critical :
  evaluate (A:=unit) (midnight 737425) (midnight 741078) (midnight 741074) 30 7
  = ([PrintStatus "CRITICAL" (midnight 741078) None
        (perf_data_days (4 * US_PER_DAY))],
     Raise (SystemExit STATUS_CRITICAL)).
Proof. reflexivity. Qed.

Example scenario_warning :
  outcome (evaluate (A:=unit) (midnight 737425) (midnight 741078)
             (midnight 741061) 30 7)
  = Raise (SystemExit STATUS_WARNING).
Proof. reflexivity. Qed.

Example scenario_not_yet_valid :
  evaluate (A:=unit) (midnight 741078) (midnight 744730) (midnight 739252) 30 7
  = ([Print "Certificate is not yet valid";
      PrintStatus "CRITICAL" (midnight 744730) (Some (midnight 741078))
        (perf_data_days (midnight 744730 - midnight 739252))],
     Raise (SystemExit STATUS_CRITICAL)).
Proof. reflexivity. Qed.

(** C1, as amended: inside the validity window, with
    [-999999999 <= critical <= warning <= 999999999], the evaluation exits
    CRITICAL when the remaining time is at most [critical] days, WARNING when
    it is above [critical] days and at most [warning] days, and OK when it is
    above [warning] days.  Both comparisons are inclusive, and the status is
    never UNKNOWN. *)
Theorem evaluate_thresholds :
  forall (A : Type) (before after now warning critical : Z),
    before <= now <= after ->
    critical <= warning ->
    - MAX_DELTA_DAYS <= critical ->
    warning <= MAX_DELTA_DAYS ->
    let remaining := after - now in
    let r := evaluate (A:=A) before after now warning critical in
    (remaining <= critical * US_PER_DAY ->
     outcome r = Raise (SystemExit STATUS_CRITICAL)) /\
    (critical * US_PER_DAY < remaining <= warning * US_PER_DAY ->
     outcome r = Raise (SystemExit STATUS_WARNING)) /\
    (warning * US_PER_DAY < remaining ->
     outcome r = Raise (SystemExit STATUS_OK)) /\
    (outcome r = Raise (SystemExit STATUS_OK)
     \/ outcome r = Raise (SystemExit STATUS_WARNING)
     \/ outcome r = Raise (SystemExit STATUS_CRITICAL)) /\
    outcome r <> Raise (SystemExit STATUS_UNKNOWN).
Proof.
  intros A before after now warning critical Hwin Hcw Hlo Hhi remaining r.
  assert (Hw : in_delta_range warning) by (unfold in_delta_range; lia).
  assert (Hc : in_delta_range critical) by (unfold in_delta_range; lia).
  subst r. rewrite (evaluate_window _ _ _ _ _ Hwin Hw Hc). fold remaining.
  assert (HD : 0 < US_PER_DAY) by reflexivity.
  destruct (remaining <=? warning * US_PER_DAY) eqn:Ew;
    [ apply Z.leb_le in Ew | apply Z.leb_gt in Ew ].
  - destruct (remaining <=? critical * US_PER_DAY) eqn:Ec;
      [ apply Z.leb_le in Ec | apply Z.leb_gt in Ec ].
    + rewrite exit_critical. unfold outcome; simpl.
      repeat split; intros; try lia; auto; discriminate.
    + rewrite exit_warning. unfold outcome; simpl.
      repeat split; intros; try lia; auto; discriminate.
  - rewrite exit_ok. unfold outcome; simpl.
    assert (critical * US_PER_DAY <= warning * US_PER_DAY) by nia.
    repeat split; intros; try lia; auto; discriminate.
Qed.

Lemma evaluate_thresholds_witness :
  (midnight 737425 <= midnight 741061 <= midnight 741078) /\
  7 <= 30 /\ - MAX_DELTA_DAYS <= 7 /\ 30 <= MAX_DELTA_DAYS /\
  outcome (evaluate (A:=unit) (midnight 737425) (midnight 741078)
             (midnight 741061) 30 7)
  = Raise (SystemExit STATUS_WARNING).
Proof.
  assert (H1 : midnight 737425 <= midnight 741061 <= midnight 741078)
    by (vm_compute; split; discriminate).
  assert (H2 : 7 <= 30) by lia.
  assert (H3 : - MAX_DELTA_DAYS <= 7) by (vm_compute; discriminate).
  assert (H4 : 30 <= MAX_DELTA_DAYS) by (vm_compute; discriminate).
  split; [exact H1|]. split; [exact H2|].
  split; [exact H3|]. split; [exact H4|].
  apply (evaluate_thresholds unit _ _ _ 30 7 H1 H2 H3 H4).
  vm_compute. split; [reflexivity | discriminate].
Defined.

(** The claim C1 without the bound on the thresholds fails: 17 days before
    expiry, with [critical = 7] and [warning = 1000000000], the remaining time
    is between the two thresholds, yet [timedelta(days=warning)] raises
    [OverflowError] at line 156 and the process exits CRITICAL through the
    catch-all handler. *)
Lemma evaluate_thresholds_counterexample :
  (midnight 737425 <= midnight 741061 <= midnight 741078) /\
  7 <= 1000000000 /\
  (7 * US_PER_DAY < midnight 741078 - midnight 741061
                  <= 1000000000 * US_PER_DAY) /\
  evaluate (A:=unit) (midnight 737425) (midnight 741078) (midnight 741061)
    1000000000 7 = ([], Raise (Error OverflowError)) /\
  process_status
    (evaluate (A:=unit) (midnight 737425) (midnight 741078) (midnight 741061)
       1000000000 7) = STATUS_CRITICAL /\
  outcome
    (evaluate (A:=unit) (midnight 737425) (midnight 741078) (midnight 741061)
       1000000000 7) <> Raise (SystemExit STATUS_WARNING).
Proof.
  repeat split; try (vm_compute; discriminate); vm_compute; reflexivity.
Qed.



(** C3, as amended: after [notAfter] the evaluation exits CRITICAL, the
    status line has the prefix CRITICAL and a strictly negative number of
    days; the expiry message is printed when in addition
    [notBefore <= now]. *)
Theorem expired_is_critical :
  forall (A : Type) (before after now warning critical : Z),
    after < now ->
    let r := evaluate (A:=A) before after now warning critical in
    outcome r = Raise (SystemExit STATUS_CRITICAL) /\
    (exists msg bo,
        output r = [Print msg;
                    PrintStatus "CRITICAL" after bo
                      (perf_data_days (after - now))]) /\
    (perf_data_days (after - now) < 0)%Q /\
    (before <= now ->
     output r = [Print "Certificate in no longer valid";
                 PrintStatus "CRITICAL" after None
                   (perf_data_days (after - now))]).
Proof.
  intros A before after now warning critical Hexp r. subst r.
  assert (Hge : (after >=? now) = false).
  { destruct (after >=? now) eqn:E; [|reflexivity].
    apply Z.geb_le in E. lia. }
  assert (Hneg : (perf_data_days (after - now) < 0)%Q)
    by (apply perf_data_days_negative; lia).
  unfold evaluate. rewrite Hge.
  destruct (before <=? now) eqn:Eb.
  - repeat split; try assumption; try reflexivity.
    do 2 eexists; reflexivity.
  - apply Z.leb_gt in Eb.
    split; [reflexivity|]. split; [do 2 eexists; reflexivity|].
    split; [assumption|]. intros; lia.
Qed.

Lemma expired_is_critical_witness :
  midnight 741078 < midnight 741079 /\
  evaluate (A:=unit) (midnight 737425) (midnight 741078) (midnight 741079) 30 7
  = ([Print "Certificate in no longer valid";
      PrintStatus "CRITICAL" (midnight 741078) None
        (perf_data_days (midnight 741078 - midnight 741079))],
     Raise (SystemExit STATUS_CRITICAL)).
Proof.
  assert (H : midnight 741078 < midnight 741079) by (vm_compute; reflexivity).
  split; [exact H|].
  destruct (expired_is_critical unit (midnight 737425) _ _ 30 7 H)
    as (Hout & _ & _ & Hmsg).
  assert (Hb : midnight 737425 <= midnight 741079)
    by (vm_compute; discriminate).
  specialize (Hmsg Hb). unfold outcome in Hout. unfold output in Hmsg.
  destruct (evaluate (midnight 737425) (midnight 741078) (midnight 741079)
              30 7) as [t o].
  simpl in Hout, Hmsg. rewrite Hout, Hmsg. reflexivity.
Defined.

(** The claim C3 fails for a window with [notAfter < notBefore] and a time
    between the two: the test of line 154 comes first, so the message is the
    not-yet-valid one and no expiry message is printed. *)
Lemma expired_message_counterexample :
  midnight 741078 < midnight 741079 /\
  evaluate (A:=unit) (midnight 741080) (midnight 741078) (midnight 741079) 30 7
  = ([Print "Certificate is not yet valid";
      PrintStatus "CRITICAL" (midnight 741078) (Some (midnight 741080))
        (perf_data_days (midnight 741078 - midnight 741079))],
     Raise (SystemExit STATUS_CRITICAL)) /\
  ~ In (Print "Certificate in no longer valid")
       (output (evaluate (A:=unit) (midnight 741080) (midnight 741078)
                  (midnight 741079) 30 7)).
Proof.
  split; [vm_compute; reflexivity|]. split; [reflexivity|].
  intros [H|[H|[]]]; discriminate H.
Qed.

(** C4: with [critical <= warning] and [notBefore <= now1 <= now2], the exit
    status at [now2] is at least the exit status at [now1], in the order
    OK (0) < WARNING (1) < CRITICAL (2).  The status is the one the process
    ends with, so a run that a threshold outside the range of [timedelta]
    interrupts counts as CRITICAL. *)
Theorem status_monotone :
  forall (A : Type) (before after now1 now2 warning critical : Z),
    critical <= warning ->
    before <= now1 ->
    now1 <= now2 ->
    process_status (evaluate (A:=A) before after now1 warning critical)
    <= process_status (evaluate (A:=A) before after now2 warning critical).
Proof.
  intros A before after now1 now2 warning critical Hcw Hb Hn.
  rewrite !process_status_evaluate.
  unfold STATUS_OK, STATUS_WARNING, STATUS_CRITICAL.
  assert (H1 : (before <=? now1) = true) by (apply Z.leb_le; lia).
  assert (H2 : (before <=? now2) = true) by (apply Z.leb_le; lia).
  rewrite H1, H2.
  destruct (after >=? now2) eqn:E2.
  - apply Z.geb_le in E2.
    assert (E1 : (after >=? now1) = true) by (apply Z.geb_le; lia).
    rewrite E1.
    destruct (delta_ok warning); [|lia].
    destruct (after - now1 <=? warning * US_PER_DAY) eqn:W1.
    + apply Z.leb_le in W1.
      assert (W2 : (after - now2 <=? warning * US_PER_DAY) = true)
        by (apply Z.leb_le; lia).
      rewrite W2.
      destruct (delta_ok critical); [|lia].
      destruct (after - now1 <=? critical * US_PER_DAY) eqn:C1.
      * apply Z.leb_le in C1.
        assert (C2 : (after - now2 <=? critical * US_PER_DAY) = true)
          by (apply Z.leb_le; lia).
        rewrite C2. lia.
      * destruct (after - now2 <=? critical * US_PER_DAY); lia.
    + destruct (after - now2 <=? warning * US_PER_DAY); [|lia].
      destruct (delta_ok critical); [|lia].
      destruct (after - now2 <=? critical * US_PER_DAY); lia.
  - destruct (after >=? now1); [|lia].
    destruct (delta_ok warning); [|lia].
    destruct (after - now1 <=? warning * US_PER_DAY); [|lia].
    destruct (delta_ok critical); [|lia].
    destruct (after - now1 <=? critical * US_PER_DAY); lia.
Qed.

Lemma status_monotone_witness :
  7 <= 30 /\ midnight 737425 <= midnight 737791 /\
  midnight 737791 <= midnight 741061 /\
  process_status (evaluate (A:=unit) (midnight 737425) (midnight 741078)
                    (midnight 737791) 30 7)
  <= process_status (evaluate (A:=unit) (midnight 737425) (midnight 741078)
                       (midnight 741061) 30 7).
Proof.
  assert (H1 : 7 <= 30) by lia.
  assert (H2 : midnight 737425 <= midnight 737791)
    by (vm_compute; discriminate).
  assert (H3 : midnight 737791 <= midnight 741061)
    by (vm_compute; discriminate).
  split; [exact H1|]. split; [exact H2|]. split; [exact H3|].
  exact (status_monotone unit _ (midnight 741078) _ _ 30 7 H1 H2 H3).
Defined.

(** C5, as amended: with [-999999999 <= critical <= warning <= 999999999],
    the nested conditionals of lines 156-162 and the flat procedure of the
    specification give the same events and the same exit inside the validity
    window. *)
Theorem nested_equals_flat :
  forall (A : Type) (before after now warning critical : Z),
    critical <= warning ->
    before <= now <= after ->
    - MAX_DELTA_DAYS <= critical ->
    warning <= MAX_DELTA_DAYS ->
    evaluate (A:=A) before after now warning critical
    = evaluate_flat before after now warning critical.
Proof.
  intros A before after now warning critical Hcw Hwin Hlo Hhi.
  assert (Hw : in_delta_range warning) by (unfold in_delta_range; lia).
  assert (Hc : in_delta_range critical) by (unfold in_delta_range; lia).
  rewrite (evaluate_window _ _ _ _ _ Hwin Hw Hc).
  unfold evaluate_flat.
  assert (E1 : (now <? before) = false) by (apply Z.ltb_ge; lia).
  assert (E2 : (now >? after) = false).
  { destruct (now >? after) eqn:E; [|reflexivity].
    apply Z.gtb_lt in E. lia. }
  rewrite E1, E2.
  assert (HD : critical * US_PER_DAY <= warning * US_PER_DAY)
    by (unfold US_PER_DAY; lia).
  destruct (after - now <=? critical * US_PER_DAY) eqn:Ec.
  - apply Z.leb_le in Ec.
    assert (Ew : (after - now <=? warning * US_PER_DAY) = true)
      by (apply Z.leb_le; lia).
    rewrite Ew. reflexivity.
  - reflexivity.
Qed.

Lemma nested_equals_flat_witness :
  7 <= 30 /\ (midnight 737425 <= midnight 741061 <= midnight 741078) /\
  - MAX_DELTA_DAYS <= 7 /\ 30 <= MAX_DELTA_DAYS /\
  evaluate (A:=unit) (midnight 737425) (midnight 741078) (midnight 741061) 30 7
  = evaluate_flat (midnight 737425) (midnight 741078) (midnight 741061) 30 7.
Proof.
  assert (H1 : 7 <= 30) by lia.
  assert (H2 : midnight 737425 <= midnight 741061 <= midnight 741078)
    by (vm_compute; split; discriminate).
  assert (H3 : - MAX_DELTA_DAYS <= 7) by (vm_compute; discriminate).
  assert (H4 : 30 <= MAX_DELTA_DAYS) by (vm_compute; discriminate).
  split; [exact H1|]. split; [exact H2|].
  split; [exact H3|]. split; [exact H4|].
  exact (nested_equals_flat unit _ _ _ 30 7 H1 H2 H3 H4).
Defined.

(** The claim C5 with [critical <= warning] alone fails.  With
    [critical = 7] and [warning = 1000000000] the test of line 156 raises
    [OverflowError] and the run ends without a status line: 17 days before
    expiry the flat procedure reports WARNING, and 4 days before expiry it
    reports CRITICAL with its status line, having compared with [critical]
    only. *)
Lemma nested_equals_flat_counterexample :
  7 <= 1000000000 /\
  (midnight 737425 <= midnight 741061 <= midnight 741078) /\
  (midnight 737425 <= midnight 741074 <= midnight 741078) /\
  evaluate (A:=unit) (midnight 737425) (midnight 741078) (midnight 741061)
    1000000000 7 = ([], Raise (Error OverflowError)) /\
  evaluate_flat (A:=unit) (midnight 737425) (midnight 741078)
    (midnight 741061) 1000000000 7
  = ([PrintStatus "WARNING" (midnight 741078) None
        (perf_data_days (midnight 741078 - midnight 741061))],
     Raise (SystemExit STATUS_WARNING)) /\
  evaluate (A:=unit) (midnight 737425) (midnight 741078) (midnight 741074)
    1000000000 7 = ([], Raise (Error OverflowError)) /\
  evaluate_flat (A:=unit) (midnight 737425) (midnight 741078)
    (midnight 741074) 1000000000 7
  = ([PrintStatus "CRITICAL" (midnight 741078) None
        (perf_data_days (midnight 741078 - midnight 741074))],
     Raise (SystemExit STATUS_CRITICAL)) /\
  evaluate (A:=unit) (midnight 737425) (midnight 741078) (midnight 741061)
    1000000000 7
  <> evaluate_flat (midnight 737425) (midnight 741078) (midnight 741061)
       1000000000 7.
Proof.
  split; [lia|]. split; [vm_compute; split; discriminate|].
  split; [vm_compute; split; discriminate|].
  split; [reflexivity|]. split; [reflexivity|].
  split; [reflexivity|]. split; [reflexivity|].
  intros H. discriminate H.
Qed.


(** Four days and a half before expiry the report is 4.5 days. *)
Example days_remaining_fractional :
  (perf_data_days (4 * US_PER_DAY + US_PER_DAY / 2) == 9 # 2)%Q.
Proof. reflexivity. Qed.

(** ** Argument parsing *)

(** Induction that follows the loop: it advances by one or by two tokens. *)
Lemma token_ind (P : list string -> Prop) :
  P [] ->
  (forall a, P [a]) ->
  (forall a b l, P l -> P (b :: l) -> P (a :: b :: l)) ->
  forall l, P l.
Proof.
  intros H0 H1 H2 l.
  assert (H : P l /\ forall a, P (a :: l)).
  { induction l as [|b l [IH1 IH2]].
    - split; [exact H0 | exact H1].
    - split; [apply IH2 | intros a; apply H2; [exact IH1 | apply IH2]]. }
  exact (proj1 H).
Qed.

Lemma is_option_false (tok : string) :
  is_option tok = false ->
  (tok =? "-s")%string = false /\ (tok =? "-p")%string = false /\
  (tok =? "-w")%string = false /\ (tok =? "-c")%string = false /\
  (tok =? "-t")%string = false.
Proof.
  unfold is_option. simpl. rewrite !orb_false_iff. tauto.
Qed.

(** A token that is no option is passed over: the iteration prints nothing,
    does not exit and leaves the dictionary as it was. *)
Lemma parse_loop_skip (prog tok : string) (rest : list string) (d : args_dict) :
  is_option tok = false ->
  parse_loop prog (tok :: rest) d = parse_loop prog rest d.
Proof.
  intros H. apply is_option_false in H.
  destruct H as (Hs & Hp & Hw & Hc & Ht).
  simpl. rewrite Hs, Hp, Hw, Hc, Ht. reflexivity.
Qed.

(** Unfolds the iteration on the token [arg], and no later iteration, and
    splits on the option that [arg] is. *)
Ltac unfold_iteration arg :=
  repeat match goal with
         | |- context [parse_loop ?p (arg :: ?r) ?d] =>
             let r' := fresh "r" in
             let E := fresh "E" in
             remember r as r' eqn:E;
             simpl (parse_loop p (arg :: r') d);
             subst r'
         end;
  cbv beta iota.

Ltac head_token arg :=
  unfold_iteration arg;
  destruct (arg =? "-s")%string eqn:?;
  [| destruct (arg =? "-p")%string eqn:?;
     [| destruct (arg =? "-w")%string eqn:?;
        [| destruct (arg =? "-c")%string eqn:?;
           [| destruct (arg =? "-t")%string eqn:? ]]]].

(** The loop ends in one of two ways: it returns a dictionary and has
    printed nothing, or it has exited with the status UNKNOWN. *)
Lemma parse_loop_total (prog : string) (rest : list string) :
  forall d,
    (exists d', parse_loop prog rest d = ([], Return d'))
    \/ (exists t, parse_loop prog rest d
                  = (t, Raise (SystemExit STATUS_UNKNOWN))).
Proof.
  induction rest as [| a | a b l IHl IHbl] using token_ind; intros d.
  - left. exists d. reflexivity.
  - head_token a; try (right; eexists; reflexivity).
    left. exists d. reflexivity.
  - head_token a; try apply IHl; try apply IHbl;
      destruct (py_int b); try apply IHl; right; eexists; reflexivity.
Qed.

Lemma parse_loop_silent (prog : string) (rest : list string) (d d' : args_dict)
    (t : trace) :
  parse_loop prog rest d = (t, Return d') -> t = [].
Proof.
  intros H. destruct (parse_loop_total prog rest d) as [[d'' E] | [t' E]];
    rewrite E in H; inversion H; reflexivity.
Qed.

(** Tokens that were parsed without an exit can be split off. *)
Lemma parse_loop_app (prog : string) (pre post : list string) :
  forall d d1,
    parse_loop prog pre d = ([], Return d1) ->
    parse_loop prog (pre ++ post)%list d = parse_loop prog post d1.
Proof.
  induction pre as [| a | a b l IHl IHbl] using token_ind; intros d d1 H.
  - inversion H. reflexivity.
  - revert H. simpl app. head_token a; intros H; try discriminate H.
    inversion H. reflexivity.
  - revert H. change ((a :: b :: l) ++ post)%list
      with (a :: b :: (l ++ post))%list.
    head_token a; try (destruct (py_int b)); intros H;
      try discriminate H; try (apply IHl; exact H).
    all: apply (IHbl d d1 H).
Qed.

(** An option that does not occur among the tokens keeps the value it had. *)
Lemma parse_loop_keeps (prog : string) (rest : list string) :
  forall d d',
    parse_loop prog rest d = ([], Return d') ->
    (~ In "-s" rest -> server d' = server d) /\
    (~ In "-p" rest -> port d' = port d) /\
    (~ In "-w" rest -> warning d' = warning d) /\
    (~ In "-c" rest -> critical d' = critical d) /\
    (~ In "-t" rest -> starttls d' = starttls d).
Proof.
  induction rest as [| a | a b l IHl IHbl] using token_ind; intros d d' H.
  - inversion H. repeat split; reflexivity.
  - revert H. head_token a; intros H; try discriminate H.
    inversion H. repeat split; reflexivity.
  - assert (Hin : forall o, ~ In o (a :: b :: l) ->
                            (a =? o)%string = false /\ ~ In o l
                            /\ ~ In o (b :: l)).
    { intros o Ho. split; [|split].
      - apply String.eqb_neq. intros ->. apply Ho. left. reflexivity.
      - intros Hl. apply Ho. right. right. exact Hl.
      - intros Hl. apply Ho. right. exact Hl. }
    revert H.
    head_token a; try (destruct (py_int b)); intros H; try discriminate H;
      try (apply IHl in H); try (apply IHbl in H);
      destruct H as (Hs & Hp & Hw & Hc & Ht);
      repeat split; intros Ho; destruct (Hin _ Ho) as (Ea & Hl & Hbl);
      try congruence;
      try (rewrite (Hs Hl)); try (rewrite (Hp Hl)); try (rewrite (Hw Hl));
      try (rewrite (Hc Hl)); try (rewrite (Ht Hl));
      try reflexivity; auto.
Qed.

(** C10: a token that is none of the five options and that stands where an
    iteration begins (the tokens [pre] before it were parsed without an
    exit) is skipped by [parse_args]: the iteration on it prints nothing and
    changes nothing, and the result is the one of the argument vector without
    it.  When an option is followed by no later occurrence of itself, its
    value is the one in the result, whatever [pre] had set. *)
Theorem parse_args_skip_and_last_wins :
  forall (prog : string) (pre post : list string) (d1 : args_dict),
    parse_args prog pre = ([], Return d1) ->
    (forall tok,
        is_option tok = false ->
        parse_loop prog (tok :: post) d1 = parse_loop prog post d1 /\
        parse_args prog (pre ++ tok :: post)%list
        = parse_args prog (pre ++ post)%list) /\
    (forall v d',
        ~ In "-s" post ->
        parse_args prog (pre ++ "-s" :: v :: post)%list = ([], Return d') ->
        server d' = Some v) /\
    (forall v n d',
        ~ In "-p" post -> py_int v = Some n ->
        parse_args prog (pre ++ "-p" :: v :: post)%list = ([], Return d') ->
        port d' = Some n) /\
    (forall v n d',
        ~ In "-w" post -> py_int v = Some n ->
        parse_args prog (pre ++ "-w" :: v :: post)%list = ([], Return d') ->
        warning d' = Some n) /\
    (forall v n d',
        ~ In "-c" post -> py_int v = Some n ->
        parse_args prog (pre ++ "-c" :: v :: post)%list = ([], Return d') ->
        critical d' = Some n) /\
    (forall v d',
        ~ In "-t" post ->
        parse_args prog (pre ++ "-t" :: v :: post)%list = ([], Return d') ->
        starttls d' = Some v).
Proof.
  unfold parse_args. intros prog pre post d1 Hpre.
  split; [| repeat split ].
  - intros tok Htok. split; [apply parse_loop_skip; exact Htok|].
    rewrite !(parse_loop_app _ _ _ _ _ Hpre).
    apply parse_loop_skip. exact Htok.
  - intros v d' Hno H. rewrite (parse_loop_app _ _ _ _ _ Hpre) in H.
    change (parse_loop prog post (set_server v d1) = ([], Return d')) in H.
    apply parse_loop_keeps in H. destruct H as (Hs & _).
    rewrite (Hs Hno). reflexivity.
  - intros v n d' Hno Hv H. rewrite (parse_loop_app _ _ _ _ _ Hpre) in H.
    revert H. unfold_iteration "-p". simpl. rewrite Hv. intros H.
    apply parse_loop_keeps in H. destruct H as (_ & Hp & _).
    rewrite (Hp Hno). reflexivity.
  - intros v n d' Hno Hv H. rewrite (parse_loop_app _ _ _ _ _ Hpre) in H.
    revert H. unfold_iteration "-w". simpl. rewrite Hv. intros H.
    apply parse_loop_keeps in H. destruct H as (_ & _ & Hw & _).
    rewrite (Hw Hno). reflexivity.
  - intros v n d' Hno Hv H. rewrite (parse_loop_app _ _ _ _ _ Hpre) in H.
    revert H. unfold_iteration "-c". simpl. rewrite Hv. intros H.
    apply parse_loop_keeps in H. destruct H as (_ & _ & _ & Hc & _).
    rewrite (Hc Hno). reflexivity.
  - intros v d' Hno H. rewrite (parse_loop_app _ _ _ _ _ Hpre) in H.
    change (parse_loop prog post (set_starttls v d1) = ([], Return d')) in H.
    apply parse_loop_keeps in H. destruct H as (_ & _ & _ & _ & Ht).
    rewrite (Ht Hno). reflexivity.
Qed.

Lemma parse_args_skip_and_last_wins_witness :
  parse_args sample_prog ["-s"; "old.example"]
  = ([], Return (set_server "old.example" empty_args)) /\
  is_option "extra" = false /\
  parse_args sample_prog
    (["-s"; "old.example"] ++ "extra" :: ["-p"; "443"])%list
  = parse_args sample_prog (["-s"; "old.example"] ++ ["-p"; "443"])%list /\
  (forall d',
      parse_args sample_prog
        (["-s"; "old.example"] ++ "-s" :: "new.example" :: ["-p"; "443"])%list
      = ([], Return d') ->
      server d' = Some "new.example").
Proof.
  assert (Hpre : parse_args sample_prog ["-s"; "old.example"]
                 = ([], Return (set_server "old.example" empty_args)))
    by reflexivity.
  assert (Htok : is_option "extra" = false) by reflexivity.
  destruct (parse_args_skip_and_last_wins sample_prog _ ["-p"; "443"] _ Hpre)
    as (Hskip & Hs & _).
  split; [exact Hpre|]. split; [exact Htok|]. split.
  - exact (proj2 (Hskip "extra" Htok)).
  - intros d' H. apply (Hs "new.example" d'); [|exact H].
    intros [E|[E|[]]]; discriminate E.
Defined.

(** ** The main block *)

(** The checks of lines 198-214 end in one of two ways: they return the
    values for [run] and have printed nothing, or they have exited with the
    status UNKNOWN. *)
Lemma checked_args_total (prog : string) (args : list string) :
  (exists a,
      checked_args prog args = ([], Return a)
      /\ parse_args prog args
         = ([], Return (mk_args (Some (call_server a)) (Some (call_port a))
                          (Some (call_warning a)) (Some (call_critical a))
                          (call_starttls a)))
      /\ call_critical a <= call_warning a)
  \/ (exists t,
         checked_args prog args = (t, Raise (SystemExit STATUS_UNKNOWN))
         /\ forallb (fun e => negb (is_popen e || is_status_line e)) t = true).
Proof.
  unfold checked_args, parse_args.
  destruct (parse_loop_total prog args empty_args) as [[d E] | [t E]];
    rewrite E.
  - rewrite bind_returned.
    destruct d as [[s|] [p|] [w|] [c|] t];
      try (right; eexists; split; reflexivity).
    cbv beta iota delta [server port warning critical starttls].
    destruct (w <? c) eqn:Ewc.
    + right; eexists; split; reflexivity.
    + left. eexists. split; [reflexivity|]. split; [reflexivity|].
      apply Z.ltb_ge in Ewc. exact Ewc.
  - right. exists t. split; [reflexivity|].
    clear -E. revert E. generalize empty_args.
    induction args as [| a | a b l IHl IHbl] using token_ind; intros d.
    + intros H; discriminate H.
    + head_token a; intros H; inversion H; reflexivity.
    + head_token a; try (destruct (py_int b)); intros H;
        try (inversion H; reflexivity); eauto.
Qed.

Section MainBlock.

Variable strptime : string -> option datetime.
Variable utf8_decode : string -> option string.
Variable communicate : string -> completed.
Variable utcnow : datetime.

(** The main block either ends at the validation, with the status
    UNKNOWN and before any process is started, or calls [run] with the
    values the checks returned. *)
Lemma main_cases {A} (prog : string) (args : list string) :
  let m := main (A:=A) strptime utf8_decode communicate utcnow prog args in
  (outcome m = Raise (SystemExit STATUS_UNKNOWN)
   /\ forallb (fun e => negb (is_popen e || is_status_line e)) (output m)
      = true)
  \/ (exists a,
         help_requested prog args = false
         /\ checked_args prog args = ([], Return a)
         /\ m = try_except
                  (run strptime utf8_decode communicate utcnow
                     (call_server a) (call_port a) (call_warning a)
                     (call_critical a) (call_starttls a))
                  (unhandled prog)).
Proof.
  intros m. subst m. unfold main.
  destruct (help_requested prog args).
  - left. split; reflexivity.
  - destruct (checked_args_total prog args)
      as [(a & E & _ & _) | (t & E & Ht)]; rewrite E.
    + right. exists a. split; [reflexivity|]. split; [reflexivity|].
      rewrite bind_returned. reflexivity.
    + left. split; [reflexivity | exact Ht].
Qed.

End MainBlock.

(** Whole runs: a certificate with nine years left, a refused connection
    (scenario 5 of the specification), and a request for help. *)
Example main_ok :
  main (A:=unit) sample_strptime ascii_decode sample_server (midnight 737791)
    sample_prog ["-s"; "example.org"; "-p"; "443"; "-w"; "30"; "-c"; "7"]
  = ([Popen (openssl_cmd "example.org" 443 None);
      PrintStatus "OK" (midnight 741078) None
        (perf_data_days (3287 * US_PER_DAY))],
     Raise (SystemExit STATUS_OK)).
Proof. reflexivity. Qed.

Example main_connection_refused :
  main (A:=unit) sample_strptime ascii_decode refusing_server
    (midnight 737791)
    sample_prog ["-s"; "example.org"; "-p"; "443"; "-w"; "30"; "-c"; "7"]
  = ([Popen (openssl_cmd "example.org" 443 None);
      PrintFailed (openssl_cmd "example.org" 443 None) EmptyString
        "unable to load certificate"],
     Raise (SystemExit 2)).
Proof. reflexivity. Qed.

Example main_help :
  main (A:=unit) sample_strptime ascii_decode sample_server (midnight 737791)
    sample_prog ["-s"; "example.org"; "--help"]
  = (usage_text sample_prog, Raise (SystemExit 3)).
Proof. reflexivity. Qed.

Example main_threshold_out_of_range :
  main (A:=unit) sample_strptime ascii_decode sample_server (midnight 737791)
    sample_prog
    ["-s"; "example.org"; "-p"; "443"; "-w"; "1000000000"; "-c"; "7"]
  = ([Popen (openssl_cmd "example.org" 443 None);
      PrintUnhandled sample_prog OverflowError],
     Raise (SystemExit 2)).
Proof. reflexivity. Qed.





(** X16: date text that [strptime] rejects is a third failure: the pattern
    has matched, [ValueError] reaches the catch-all handler, and the process
    exits CRITICAL after the report of the handler, without the raw output
    and without a status line. *)
Lemma unparsable_dates_are_unhandled
    (strptime : string -> option datetime)
    (utf8_decode : string -> option string)
    (communicate : string -> completed) (utcnow : datetime)
    (A : Type) (prog server : string) (port warning critical : Z)
    (starttls : option string) (text b a : string) :
  let cmd := openssl_cmd server port starttls in
  returncode (communicate cmd) = 0 ->
  utf8_decode (stdout (communicate cmd)) = Some text ->
  regex_match text = Some (b, a) ->
  strptime b = None \/ strptime a = None ->
  try_except
    (run (A:=A) strptime utf8_decode communicate utcnow
       server port warning critical starttls)
    (unhandled prog)
  = ([Popen cmd; PrintUnhandled prog ValueError],
     Raise (SystemExit STATUS_CRITICAL)).
Proof.
  intros cmd Hrc Hdec Hre Hval. unfold run. fold cmd.
  rewrite Hrc, Hdec, Hre. simpl.
  destruct (strptime b) as [before|]; [|reflexivity].
  destruct Hval as [Hval | Hval]; [discriminate Hval|].
  rewrite Hval. reflexivity.
Qed.

(** C9, as amended: the main block either ends at the validation with the
    status UNKNOWN, before any process is started, or calls [run] with
    thresholds that satisfy [critical <= warning].  Nothing makes the
    thresholds non-negative. *)
Theorem validated_thresholds_ordered :
  forall (strptime : string -> option datetime)
         (utf8_decode : string -> option string)
         (communicate : string -> completed) (utcnow : datetime)
         (A : Type) (prog : string) (args : list string),
    let m := main (A:=A) strptime utf8_decode communicate utcnow prog args in
    (outcome m = Raise (SystemExit STATUS_UNKNOWN)
     /\ forallb (fun e => negb (is_popen e || is_status_line e)) (output m)
        = true)
    \/ (exists a,
           checked_args prog args = ([], Return a)
           /\ m = try_except
                    (run strptime utf8_decode communicate utcnow
                       (call_server a) (call_port a) (call_warning a)
                       (call_critical a) (call_starttls a))
                    (unhandled prog)
           /\ call_critical a <= call_warning a).
Proof.
  intros strptime utf8_decode communicate utcnow A prog args m.
  destruct (main_cases strptime utf8_decode communicate utcnow (A:=A)
              prog args) as [Hl | (a & _ & Ha & Hm)].
  - left. exact Hl.
  - right. exists a. split; [exact Ha|]. split; [exact Hm|].
    destruct (checked_args_total prog args)
      as [(a' & E & _ & Hle) | (t & E & _)]; rewrite E in Ha.
    + inversion Ha. subst a'. exact Hle.
    + discriminate Ha.
Qed.

(** The claim C9 fails on the non-negativity: the arguments [-w -1 -c -2]
    pass every check, [run] starts the pipeline with [warning = -1] and
    [critical = -2], and the check ends with the status OK. *)
Lemma negative_thresholds_counterexample :
  checked_args sample_prog
    ["-s"; "example.org"; "-p"; "443"; "-w"; "-1"; "-c"; "-2"]
  = ([], Return (mk_call "example.org" 443 (-1) (-2) None)) /\
  ~ (0 <= -1) /\ ~ (0 <= -2) /\
  main (A:=unit) sample_strptime ascii_decode sample_server (midnight 737791)
    sample_prog ["-s"; "example.org"; "-p"; "443"; "-w"; "-1"; "-c"; "-2"]
  = ([Popen (openssl_cmd "example.org" 443 None);
      PrintStatus "OK" (midnight 741078) None
        (perf_data_days (midnight 741078 - midnight 737791))],
     Raise (SystemExit STATUS_OK)).
Proof.
  split; [reflexivity|]. split; [lia|]. split; [lia|]. reflexivity.
Qed.

(** ** The pattern of the two date lines *)

Lemma strip_prefix_spec (p s r : string) :
  strip_prefix p s = Some r <-> s = p ++ r.
Proof.
  revert s. induction p as [|c p IH]; intros s; simpl.
  - split; [intros H; inversion H; reflexivity | intros ->; reflexivity].
  - destruct s as [|c' s].
    + split; intros H; discriminate H.
    + destruct (Ascii.eqb c c') eqn:E.
      * apply Ascii.eqb_eq in E. subst c'. rewrite IH.
        split; [intros ->; reflexivity | intros H; inversion H; reflexivity].
      * apply Ascii.eqb_neq in E.
        split; [intros H; discriminate H | intros H; inversion H; congruence].
Qed.

Lemma split_line_spec (s line rest : string) :
  split_line s = Some (line, rest)
  <-> s = line ++ newline ++ rest /\ no_line_feed line = true.
Proof.
  revert line. induction s as [|c s IH]; intros line; simpl.
  - split; [intros H; discriminate H|].
    intros [H _]. destruct line; discriminate H.
  - destruct (Ascii.eqb c "010") eqn:E.
    + apply Ascii.eqb_eq in E. subst c. split.
      * intros H. inversion H. split; reflexivity.
      * intros [H Hn]. destruct line as [|c' line].
        -- inversion H. reflexivity.
        -- inversion H. subst c'. discriminate Hn.
    + split.
      * destruct (split_line s) as [[l r]|] eqn:Es; [|intros H; discriminate H].
        intros H. inversion H. subst line rest.
        destruct (proj1 (IH l) eq_refl) as [-> Hn].
        split; [reflexivity|]. simpl. rewrite E, Hn. reflexivity.
      * intros [H Hn]. destruct line as [|c' line].
        -- inversion H. subst c. discriminate E.
        -- simpl in H. injection H as Hc Hs. subst c'.
           simpl in Hn. rewrite E in Hn. simpl in Hn.
           rewrite (proj2 (IH line) (conj Hs Hn)). reflexivity.
Qed.

(** X17: the pattern matches exactly the texts that start with a line
    [notBefore=...] followed by a line [notAfter=...], and the groups are the
    rests of these two lines. *)
Lemma regex_match_spec (text before after : string) :
  regex_match text = Some (before, after)
  <-> exists rest,
      text = "notBefore=" ++ before ++ newline
             ++ "notAfter=" ++ after ++ newline ++ rest
      /\ no_line_feed before = true /\ no_line_feed after = true.
Proof.
  unfold regex_match. split.
  - destruct (strip_prefix "notBefore=" text) as [r1|] eqn:E1;
      [|intros H; discriminate H].
    destruct (split_line r1) as [[b r2]|] eqn:E2; [|intros H; discriminate H].
    destruct (strip_prefix "notAfter=" r2) as [r3|] eqn:E3;
      [|intros H; discriminate H].
    destruct (split_line r3) as [[a r4]|] eqn:E4; [|intros H; discriminate H].
    intros H. inversion H. subst b a.
    apply strip_prefix_spec in E1. apply split_line_spec in E2.
    apply strip_prefix_spec in E3. apply split_line_spec in E4.
    destruct E2 as [E2 Hb]. destruct E4 as [E4 Ha].
    exists r4. subst text r1 r2 r3. repeat split; assumption.
  - intros (rest & -> & Hb & Ha).
    rewrite (proj2 (strip_prefix_spec "notBefore=" _ _) eq_refl).
    rewrite (proj2 (split_line_spec _ before _) (conj eq_refl Hb)).
    rewrite (proj2 (strip_prefix_spec "notAfter=" _ _) eq_refl).
    rewrite (proj2 (split_line_spec _ after _) (conj eq_refl Ha)).
    reflexivity.
Qed.

(** ** Every run ends with an exit status *)

(** The evaluation never returns to its caller: it exits with OK, WARNING or
    CRITICAL, or it raises [OverflowError]. *)
Ltac exits_with code :=
  left; exists code; split; [reflexivity | vm_compute; split; discriminate].

Lemma evaluate_outcome {A} (before after now warning critical : Z) :
  let r := evaluate (A:=A) before after now warning critical in
  (exists code, outcome r = Raise (SystemExit code) /\ 0 <= code <= 2)
  \/ outcome r = Raise (Error OverflowError).
Proof.
  intros r. subst r. unfold evaluate, timedelta_days.
  destruct (before <=? now);
    [|exits_with STATUS_CRITICAL].
  destruct (after >=? now);
    [|exits_with STATUS_CRITICAL].
  destruct (delta_ok warning); [|right; reflexivity].
  rewrite bind_ret.
  destruct (after - now <=? warning * US_PER_DAY);
    [|exits_with STATUS_OK].
  destruct (delta_ok critical); [|right; reflexivity].
  rewrite bind_ret.
  destruct (after - now <=? critical * US_PER_DAY).
  - exits_with STATUS_CRITICAL.
  - exits_with STATUS_WARNING.
Qed.

Lemma run_outcome {A}
    (strptime : string -> option datetime)
    (utf8_decode : string -> option string)
    (communicate : string -> completed) (utcnow : datetime)
    (server : string) (port warning critical : Z) (starttls : option string) :
  let r := run (A:=A) strptime utf8_decode communicate utcnow
             server port warning critical starttls in
  (exists code, outcome r = Raise (SystemExit code) /\ 0 <= code <= 2)
  \/ (exists ex, outcome r = Raise (Error ex)).
Proof.
  intros r. subst r. unfold run. rewrite bind_emit. unfold outcome at 1 3.
  simpl snd.
  destruct (returncode _ =? 0);
    [|exits_with STATUS_CRITICAL].
  destruct (utf8_decode _); [|right; eexists; reflexivity].
  destruct (regex_match _) as [[b a]|];
    [|exits_with STATUS_CRITICAL].
  destruct (strptime b) as [before|]; [|right; eexists; reflexivity].
  destruct (strptime a) as [after|]; [|right; eexists; reflexivity].
  destruct (evaluate_outcome (A:=A) before after utcnow warning critical)
    as [(code & E & Hc) | E].
  - left. exists code. split; [exact E | exact Hc].
  - right. eexists. exact E.
Qed.

(** The catch-all handler turns an exception into the exit status CRITICAL:
    the status of the process is [process_status] of the guarded body. *)
Lemma try_except_status {A} (prog : string) (body : M A) :
  (forall a, outcome body <> Return a) ->
  outcome (try_except body (unhandled prog))
  = Raise (SystemExit (process_status body)).
Proof.
  unfold process_status, outcome. destruct body as [t [a | [code | ex]]];
    simpl; intros H.
  - contradiction (H a). reflexivity.
  - reflexivity.
  - reflexivity.
Qed.

(** The main block always ends with one of the four exit codes. *)
Lemma main_exits {A}
    (strptime : string -> option datetime)
    (utf8_decode : string -> option string)
    (communicate : string -> completed) (utcnow : datetime)
    (prog : string) (args : list string) :
  exists code,
    outcome (main (A:=A) strptime utf8_decode communicate utcnow prog args)
    = Raise (SystemExit code)
    /\ 0 <= code <= 3.
Proof.
  destruct (main_cases strptime utf8_decode communicate utcnow (A:=A)
              prog args) as [[Hl _] | (a & _ & _ & Hm)].
  - exists STATUS_UNKNOWN. split; [exact Hl | vm_compute; split; discriminate].
  - rewrite Hm.
    destruct (run_outcome (A:=A) strptime utf8_decode communicate utcnow
                (call_server a) (call_port a) (call_warning a)
                (call_critical a) (call_starttls a))
      as [(code & E & Hc) | (ex & E)];
      unfold outcome in *;
      destruct (run _ _ _ _ _ _ _ _ _) as [t o]; simpl in E; subst o.
    + exists code. split; [reflexivity | lia].
    + exists STATUS_CRITICAL.
      split; [reflexivity | vm_compute; split; discriminate].
Qed.

(** * Further properties of the evaluation *)

(** The two ways the evaluation ends: [OverflowError] before anything is
    printed, or one status line, after at most messages that are neither a
    status line nor a process start, and an exit with the code whose word
    the line begins with. *)
Lemma evaluate_cases {A} (before after now warning critical : Z) :
  evaluate (A:=A) before after now warning critical
  = ([], Raise (Error OverflowError))
  \/ exists code prefix msgs,
      PREFIXES code = Some prefix /\ 0 <= code <= 2 /\
      forallb (fun e => negb (is_popen e || is_status_line e)) msgs = true /\
      evaluate (A:=A) before after now warning critical
      = ((msgs ++ [PrintStatus prefix after
                     (if now <? before then Some before else None)
                     (perf_data_days (after - now))])%list,
         Raise (SystemExit code)).
Proof.
  unfold evaluate, timedelta_days.
  destruct (before <=? now) eqn:Eb.
  - assert (En : (now <? before) = false)
      by (apply Z.ltb_ge; apply Z.leb_le; exact Eb).
    rewrite En.
    destruct (after >=? now).
    + destruct (delta_ok warning); [|left; reflexivity].
      rewrite bind_ret.
      destruct (after - now <=? warning * US_PER_DAY).
      * destruct (delta_ok critical); [|left; reflexivity].
        rewrite bind_ret.
        destruct (after - now <=? critical * US_PER_DAY).
        -- right. exists STATUS_CRITICAL, "CRITICAL", [].
           repeat split; discriminate.
        -- right. exists STATUS_WARNING, "WARNING", [].
           repeat split; discriminate.
      * right. exists STATUS_OK, "OK", []. repeat split; discriminate.
    + right.
      exists STATUS_CRITICAL, "CRITICAL",
        [Print "Certificate in no longer valid"].
      repeat split; discriminate.
  - assert (En : (now <? before) = true)
      by (apply Z.ltb_lt; apply Z.leb_gt; exact Eb).
    rewrite En. right.
    exists STATUS_CRITICAL, "CRITICAL", [Print "Certificate is not yet valid"].
    repeat split; discriminate.
Qed.

Lemma process_status_exit {A} (m : M A) (code : Z) :
  outcome m = Raise (SystemExit code) -> process_status m = code.
Proof. unfold process_status. intros ->. reflexivity. Qed.

(** X1: the two lenient verdicts are sound.  When the evaluation exits OK,
    the time is inside the validity window and more than [warning] days
    remain; when it exits WARNING, the time is inside the window and the
    remaining time is above [critical] days and at most [warning] days. *)
Theorem lenient_verdicts_are_sound :
  forall (A : Type) (before after now warning critical : Z),
    let r := evaluate (A:=A) before after now warning critical in
    (outcome r = Raise (SystemExit STATUS_OK) ->
     before <= now <= after /\ in_delta_range warning
     /\ warning * US_PER_DAY < after - now) /\
    (outcome r = Raise (SystemExit STATUS_WARNING) ->
     before <= now <= after
     /\ in_delta_range warning /\ in_delta_range critical
     /\ critical * US_PER_DAY < after - now <= warning * US_PER_DAY).
Proof.
  intros A before after now warning critical r. subst r.
  split; intros H; apply process_status_exit in H;
    rewrite process_status_evaluate in H;
    unfold STATUS_OK, STATUS_WARNING, STATUS_CRITICAL in H;
    destruct (before <=? now) eqn:Eb; try discriminate H;
    destruct (after >=? now) eqn:Ea; try discriminate H;
    destruct (delta_ok warning) eqn:Ew; try discriminate H;
    destruct (after - now <=? warning * US_PER_DAY) eqn:Erw;
    apply Z.leb_le in Eb; apply Z.geb_le in Ea; apply delta_ok_spec in Ew.
  - destruct (delta_ok critical); try discriminate H.
    destruct (after - now <=? critical * US_PER_DAY); discriminate H.
  - apply Z.leb_gt in Erw. repeat split; try lia; apply Ew.
  - destruct (delta_ok critical) eqn:Ec; try discriminate H.
    destruct (after - now <=? critical * US_PER_DAY) eqn:Erc;
      try discriminate H.
    apply Z.leb_le in Erw. apply Z.leb_gt in Erc. apply delta_ok_spec in Ec.
    repeat split; try lia; try apply Ew; apply Ec.
  - discriminate H.
Qed.

Lemma lenient_verdicts_are_sound_witness :
  outcome (evaluate (A:=unit) (midnight 737425) (midnight 741078)
             (midnight 741061) 30 7) = Raise (SystemExit STATUS_WARNING) /\
  7 * US_PER_DAY < midnight 741078 - midnight 741061 <= 30 * US_PER_DAY.
Proof.
  assert (H : outcome (evaluate (A:=unit) (midnight 737425) (midnight 741078)
                         (midnight 741061) 30 7)
              = Raise (SystemExit STATUS_WARNING)) by reflexivity.
  split; [exact H|].
  exact (proj2 (proj2 (proj2
    (proj2 (lenient_verdicts_are_sound unit _ _ _ 30 7) H)))).
Defined.

(** X2: the level WARNING needs a warning threshold above the critical
    one.  With [warning <= critical], which the validation lets through when
    the two are equal, the evaluation never exits WARNING; inside the window,
    with both thresholds in the range of [timedelta], it exits CRITICAL as
    soon as the remaining time is at most [warning] days, and OK otherwise. *)
Theorem no_warning_without_gap :
  forall (A : Type) (before after now warning critical : Z),
    warning <= critical ->
    let r := evaluate (A:=A) before after now warning critical in
    outcome r <> Raise (SystemExit STATUS_WARNING) /\
    (before <= now <= after ->
     in_delta_range warning -> in_delta_range critical ->
     outcome r
     = Raise (SystemExit (if after - now <=? warning * US_PER_DAY
                          then STATUS_CRITICAL else STATUS_OK))).
Proof.
  intros A before after now warning critical Hwc r. subst r.
  assert (HD : warning * US_PER_DAY <= critical * US_PER_DAY)
    by (unfold US_PER_DAY; lia).
  split.
  - intros H. apply process_status_exit in H.
    rewrite process_status_evaluate in H.
    unfold STATUS_OK, STATUS_WARNING, STATUS_CRITICAL in H.
    destruct (before <=? now); try discriminate H.
    destruct (after >=? now); try discriminate H.
    destruct (delta_ok warning); try discriminate H.
    destruct (after - now <=? warning * US_PER_DAY) eqn:Erw;
      try discriminate H.
    destruct (delta_ok critical); try discriminate H.
    destruct (after - now <=? critical * US_PER_DAY) eqn:Erc;
      try discriminate H.
    apply Z.leb_le in Erw. apply Z.leb_gt in Erc. lia.
  - intros Hwin Hw Hc. rewrite (evaluate_window _ _ _ _ _ Hwin Hw Hc).
    destruct (after - now <=? warning * US_PER_DAY) eqn:Erw; [|reflexivity].
    apply Z.leb_le in Erw.
    assert (Erc : (after - now <=? critical * US_PER_DAY) = true)
      by (apply Z.leb_le; lia).
    rewrite Erc. reflexivity.
Qed.

Lemma no_warning_without_gap_witness :
  7 <= 7 /\
  outcome (evaluate (A:=unit) (midnight 737425) (midnight 741078)
             (midnight 741074) 7 7) = Raise (SystemExit STATUS_CRITICAL) /\
  outcome (evaluate (A:=unit) (midnight 737425) (midnight 741078)
             (midnight 741061) 7 7) = Raise (SystemExit STATUS_OK).
Proof.
  assert (H : 7 <= 7) by lia.
  assert (Hw : in_delta_range 7) by (vm_compute; split; discriminate).
  split; [exact H|]. split.
  - apply (proj2 (no_warning_without_gap unit (midnight 737425)
                    (midnight 741078) (midnight 741074) 7 7 H));
      [vm_compute; split; discriminate | exact Hw | exact Hw].
  - apply (proj2 (no_warning_without_gap unit (midnight 737425)
                    (midnight 741078) (midnight 741061) 7 7 H));
      [vm_compute; split; discriminate | exact Hw | exact Hw].
Defined.

(** X3: raising a threshold never lowers the exit status.  For thresholds
    not below the range of [timedelta], [warning <= warning'] and
    [critical <= critical'] give a status with the larger thresholds that is
    at least the status with the smaller ones, at every time. *)
Theorem status_monotone_in_thresholds :
  forall (A : Type) (before after now : Z)
         (warning warning' critical critical' : Z),
    - MAX_DELTA_DAYS <= warning -> warning <= warning' ->
    - MAX_DELTA_DAYS <= critical -> critical <= critical' ->
    process_status (evaluate (A:=A) before after now warning critical)
    <= process_status (evaluate (A:=A) before after now warning' critical').
Proof.
  intros A before after now w w' c c' Hw Hww Hc Hcc.
  rewrite !process_status_evaluate.
  unfold STATUS_OK, STATUS_WARNING, STATUS_CRITICAL.
  destruct (before <=? now); [|lia].
  destruct (after >=? now); [|lia].
  unfold delta_ok.
  assert (Elw : (- MAX_DELTA_DAYS <=? w) = true) by (apply Z.leb_le; lia).
  assert (Elw' : (- MAX_DELTA_DAYS <=? w') = true) by (apply Z.leb_le; lia).
  assert (Elc : (- MAX_DELTA_DAYS <=? c) = true) by (apply Z.leb_le; lia).
  assert (Elc' : (- MAX_DELTA_DAYS <=? c') = true) by (apply Z.leb_le; lia).
  rewrite Elw, Elw', Elc, Elc'. simpl andb.
  assert (HDw : w * US_PER_DAY <= w' * US_PER_DAY)
    by (unfold US_PER_DAY; lia).
  assert (HDc : c * US_PER_DAY <= c' * US_PER_DAY)
    by (unfold US_PER_DAY; lia).
  destruct (w' <=? MAX_DELTA_DAYS) eqn:Ew'.
  2:{ repeat match goal with
             | |- context [if ?b then _ else _] => destruct b
             end; lia. }
  assert (Ew : (w <=? MAX_DELTA_DAYS) = true).
  { apply Z.leb_le in Ew'. apply Z.leb_le. lia. }
  rewrite Ew.
  destruct (after - now <=? w * US_PER_DAY) eqn:Erw.
  2:{ repeat match goal with
             | |- context [if ?b then _ else _] => destruct b
             end; lia. }
  apply Z.leb_le in Erw.
  assert (Erw' : (after - now <=? w' * US_PER_DAY) = true)
    by (apply Z.leb_le; lia).
  rewrite Erw'.
  destruct (c' <=? MAX_DELTA_DAYS) eqn:Ec'.
  2:{ repeat match goal with
             | |- context [if ?b then _ else _] => destruct b
             end; lia. }
  assert (Ec : (c <=? MAX_DELTA_DAYS) = true).
  { apply Z.leb_le in Ec'. apply Z.leb_le. lia. }
  rewrite Ec.
  destruct (after - now <=? c * US_PER_DAY) eqn:Erc.
  - apply Z.leb_le in Erc.
    assert (Erc' : (after - now <=? c' * US_PER_DAY) = true)
      by (apply Z.leb_le; lia).
    rewrite Erc'. lia.
  - destruct (after - now <=? c' * US_PER_DAY); lia.
Qed.

Lemma status_monotone_in_thresholds_witness :
  - MAX_DELTA_DAYS <= 7 /\ 7 <= 30 /\ - MAX_DELTA_DAYS <= 3 /\ 3 <= 20 /\
  process_status (evaluate (A:=unit) (midnight 737425) (midnight 741078)
                    (midnight 741061) 7 3)
  <= process_status (evaluate (A:=unit) (midnight 737425) (midnight 741078)
                       (midnight 741061) 30 20).
Proof.
  assert (H1 : - MAX_DELTA_DAYS <= 7) by (vm_compute; discriminate).
  assert (H2 : 7 <= 30) by lia.
  assert (H3 : - MAX_DELTA_DAYS <= 3) by (vm_compute; discriminate).
  assert (H4 : 3 <= 20) by lia.
  split; [exact H1|]. split; [exact H2|].
  split; [exact H3|]. split; [exact H4|].
  exact (status_monotone_in_thresholds unit (midnight 737425)
           (midnight 741078) (midnight 741061) 7 30 3 20 H1 H2 H3 H4).
Defined.

(** X4: every status line the evaluation prints shows [notAfter] as the
    expiry date and the days of [notAfter - now]; its clause
    [Not valid until] is present exactly when [now < notBefore], and then
    shows [notBefore]; its first word is the word of the exit code. *)
Theorem status_line_contents :
  forall (A : Type) (before after now warning critical : Z)
         (prefix : string) (expires : datetime) (clause : option datetime)
         (days : Q),
    let r := evaluate (A:=A) before after now warning critical in
    In (PrintStatus prefix expires clause days) (output r) ->
    expires = after /\
    days = perf_data_days (after - now) /\
    (now < before /\ clause = Some before
     \/ before <= now /\ clause = None) /\
    exists code,
      outcome r = Raise (SystemExit code) /\ PREFIXES code = Some prefix.
Proof.
  intros A before after now warning critical prefix expires clause days r.
  subst r.
  destruct (evaluate_cases (A:=A) before after now warning critical)
    as [E | (code & p & msgs & Hp & _ & Hmsgs & E)]; rewrite E;
    unfold output, outcome; simpl fst; simpl snd.
  - intros [].
  - intros Hin. apply in_app_or in Hin. destruct Hin as [Hin | Hin].
    + rewrite forallb_forall in Hmsgs. apply Hmsgs in Hin.
      simpl in Hin. discriminate Hin.
    + destruct Hin as [Hin | []]. inversion Hin. subst.
      split; [reflexivity|]. split; [reflexivity|]. split.
      * destruct (now <? before) eqn:En.
        -- left. apply Z.ltb_lt in En. split; [exact En | reflexivity].
        -- right. apply Z.ltb_ge in En. split; [exact En | reflexivity].
      * exists code. split; [reflexivity | exact Hp].
Qed.

Lemma status_line_contents_witness :
  In (PrintStatus "CRITICAL" (midnight 744730) (Some (midnight 741078))
        (perf_data_days (midnight 744730 - midnight 739252)))
     (output (evaluate (A:=unit) (midnight 741078) (midnight 744730)
                (midnight 739252) 30 7)) /\
  (midnight 739252 < midnight 741078
   /\ Some (midnight 741078) = Some (midnight 741078)
   \/ midnight 741078 <= midnight 739252
      /\ Some (midnight 741078) = None).
Proof.
  assert (H : In (PrintStatus "CRITICAL" (midnight 744730)
                    (Some (midnight 741078))
                    (perf_data_days (midnight 744730 - midnight 739252)))
                 (output (evaluate (A:=unit) (midnight 741078)
                            (midnight 744730) (midnight 739252) 30 7)))
    by (right; left; reflexivity).
  split; [exact H|].
  exact (proj1 (proj2 (proj2
    (status_line_contents unit _ _ _ 30 7 _ _ _ _ H)))).
Defined.

(** * Further properties of the argument parsing *)

Lemma is_option_true (tok : string) :
  is_option tok = true ->
  tok = "-s" \/ tok = "-p" \/ tok = "-w" \/ tok = "-c" \/ tok = "-t".
Proof.
  unfold is_option. simpl. rewrite !orb_true_iff, !String.eqb_eq.
  intros [H | [H | [H | [H | [H | H]]]]]; auto. discriminate H.
Qed.

(** X5: an option that is the last token, where an iteration begins, has no
    value: [parse_args] prints the diagnostic of that option and the usage
    text and exits with the status UNKNOWN.  The diagnostic of [-t] names
    [-s]. *)
Theorem option_without_value_exits :
  forall (prog : string) (pre : list string) (d1 : args_dict),
    parse_args prog pre = ([], Return d1) ->
    parse_args prog (pre ++ ["-s"])%list
    = (Print "-s requires a value, server" :: usage_text prog,
       Raise (SystemExit STATUS_UNKNOWN)) /\
    parse_args prog (pre ++ ["-p"])%list
    = (Print "-p requires a value, port" :: usage_text prog,
       Raise (SystemExit STATUS_UNKNOWN)) /\
    parse_args prog (pre ++ ["-w"])%list
    = (Print "-w requires a value, days" :: usage_text prog,
       Raise (SystemExit STATUS_UNKNOWN)) /\
    parse_args prog (pre ++ ["-c"])%list
    = (Print "-c requires a value, days" :: usage_text prog,
       Raise (SystemExit STATUS_UNKNOWN)) /\
    parse_args prog (pre ++ ["-t"])%list
    = (Print "-s requires a value, starttls protocol" :: usage_text prog,
       Raise (SystemExit STATUS_UNKNOWN)).
Proof.
  unfold parse_args. intros prog pre d1 Hpre.
  rewrite !(parse_loop_app _ _ _ _ _ Hpre). repeat split; reflexivity.
Qed.

Lemma option_without_value_exits_witness :
  parse_args sample_prog ["-s"; "example.org"]
  = ([], Return (set_server "example.org" empty_args)) /\
  parse_args sample_prog (["-s"; "example.org"] ++ ["-t"])%list
  = (Print "-s requires a value, starttls protocol" :: usage_text sample_prog,
     Raise (SystemExit STATUS_UNKNOWN)).
Proof.
  assert (H : parse_args sample_prog ["-s"; "example.org"]
              = ([], Return (set_server "example.org" empty_args)))
    by reflexivity.
  split; [exact H|].
  exact (proj2 (proj2 (proj2 (proj2
    (option_without_value_exits sample_prog _ _ H))))).
Defined.



(** X7: the order of two different options does not matter.  Where an
    iteration begins, two option-value pairs with different options and
    values that the options accept can be exchanged without changing the
    result of [parse_args]. *)
Theorem option_pairs_commute :
  forall (prog : string) (pre post : list string) (d1 : args_dict)
         (o1 v1 o2 v2 : string),
    parse_args prog pre = ([], Return d1) ->
    is_option o1 = true -> is_option o2 = true -> o1 <> o2 ->
    value_ok o1 v1 = true -> value_ok o2 v2 = true ->
    parse_args prog (pre ++ o1 :: v1 :: o2 :: v2 :: post)%list
    = parse_args prog (pre ++ o2 :: v2 :: o1 :: v1 :: post)%list.
Proof.
  unfold parse_args.
  intros prog pre post d1 o1 v1 o2 v2 Hpre Ho1 Ho2 Hne Hv1 Hv2.
  rewrite !(parse_loop_app _ _ _ _ _ Hpre).
  apply is_option_true in Ho1. apply is_option_true in Ho2.
  unfold value_ok in Hv1, Hv2.
  destruct Ho1 as [-> | [-> | [-> | [-> | ->]]]];
    destruct Ho2 as [-> | [-> | [-> | [-> | ->]]]];
    try (contradiction Hne; reflexivity);
    simpl in Hv1, Hv2;
    try (destruct (py_int v1) as [n1|] eqn:E1; [|discriminate Hv1]);
    try (destruct (py_int v2) as [n2|] eqn:E2; [|discriminate Hv2]);
    repeat (match goal with
            | |- context [parse_loop ?p (?o :: ?v :: ?r) ?d] =>
                let r' := fresh "r" in
                let Er := fresh "Er" in
                remember r as r' eqn:Er;
                simpl (parse_loop p (o :: v :: r') d);
                subst r'
            end;
            repeat match goal with
                   | H : py_int _ = Some _ |- _ => rewrite H
                   end);
    reflexivity.
Qed.

Lemma option_pairs_commute_witness :
  parse_args sample_prog ["-s"; "example.org"]
  = ([], Return (set_server "example.org" empty_args)) /\
  is_option "-w" = true /\ is_option "-p" = true /\ "-w" <> "-p" /\
  value_ok "-w" "30" = true /\ value_ok "-p" "443" = true /\
  parse_args sample_prog
    (["-s"; "example.org"] ++ "-w" :: "30" :: "-p" :: "443" :: ["-c"; "7"])%list
  = parse_args sample_prog
      (["-s"; "example.org"]
       ++ "-p" :: "443" :: "-w" :: "30" :: ["-c"; "7"])%list.
Proof.
  assert (H : parse_args sample_prog ["-s"; "example.org"]
              = ([], Return (set_server "example.org" empty_args)))
    by reflexivity.
  assert (H1 : is_option "-w" = true) by reflexivity.
  assert (H2 : is_option "-p" = true) by reflexivity.
  assert (H3 : "-w" <> "-p") by discriminate.
  assert (H4 : value_ok "-w" "30" = true) by reflexivity.
  assert (H5 : value_ok "-p" "443" = true) by reflexivity.
  split; [exact H|]. split; [exact H1|]. split; [exact H2|].
  split; [exact H3|]. split; [exact H4|]. split; [exact H5|].
  exact (option_pairs_commute sample_prog _ ["-c"; "7"] _ _ _ _ _
           H H1 H2 H3 H4 H5).
Defined.

(** X8: a help flag anywhere in [sys.argv] wins over everything else, also
    where it stands as the value of an option or as the program name, and so
    does an argument vector without arguments: the main block prints the
    usage text alone and exits with the status UNKNOWN. *)
Theorem help_takes_precedence :
  forall (strptime : string -> option datetime)
         (utf8_decode : string -> option string)
         (communicate : string -> completed) (utcnow : datetime)
         (A : Type) (prog : string) (args : list string),
    args = [] \/ In "-h" (prog :: args) \/ In "--help" (prog :: args) ->
    main (A:=A) strptime utf8_decode communicate utcnow prog args
    = (usage_text prog, Raise (SystemExit STATUS_UNKNOWN)).
Proof.
  intros strptime utf8_decode communicate utcnow A prog args H.
  assert (Hh : help_requested prog args = true).
  { unfold help_requested. rewrite !orb_true_iff.
    destruct H as [-> | [H | H]].
    - left. left. reflexivity.
    - left. right. apply existsb_exists. exists "-h".
      split; [exact H | reflexivity].
    - right. apply existsb_exists. exists "--help".
      split; [exact H | reflexivity]. }
  unfold main. rewrite Hh. reflexivity.
Qed.

Lemma help_takes_precedence_witness :
  ([ "-s"; "-h"; "-p"; "443" ] = []
   \/ In "-h" (sample_prog :: ["-s"; "-h"; "-p"; "443"])
   \/ In "--help" (sample_prog :: ["-s"; "-h"; "-p"; "443"])) /\
  main (A:=unit) sample_strptime ascii_decode sample_server (midnight 737791)
    sample_prog ["-s"; "-h"; "-p"; "443"]
  = (usage_text sample_prog, Raise (SystemExit STATUS_UNKNOWN)).
Proof.
  assert (H : [ "-s"; "-h"; "-p"; "443" ] = []
              \/ In "-h" (sample_prog :: ["-s"; "-h"; "-p"; "443"])
              \/ In "--help" (sample_prog :: ["-s"; "-h"; "-p"; "443"]))
    by (right; left; right; right; left; reflexivity).
  split; [exact H|].
  exact (help_takes_precedence sample_strptime ascii_decode sample_server
           (midnight 737791) unit sample_prog _ H).
Defined.

(** * Further properties of whole runs *)

(** A parsing that exits has printed one diagnostic and the usage text. *)
Lemma parse_loop_failure (prog : string) (rest : list string) :
  forall d t e,
    parse_loop prog rest d = (t, Raise e) ->
    e = SystemExit STATUS_UNKNOWN
    /\ exists diag, t = Print diag :: usage_text prog.
Proof.
  induction rest as [| a | a b l IHl IHbl] using token_ind; intros d t e.
  - intros H; discriminate H.
  - head_token a; intros H; inversion H;
      split; try reflexivity; eexists; reflexivity.
  - head_token a; try (destruct (py_int b)); intros H; eauto;
      inversion H; split; try reflexivity; eexists; reflexivity.
Qed.

Lemma checked_args_failure (prog : string) (args : list string)
    (t : trace) (e : raised) :
  checked_args prog args = (t, Raise e) ->
  e = SystemExit STATUS_UNKNOWN
  /\ exists diag, t = Print diag :: usage_text prog.
Proof.
  unfold checked_args, parse_args.
  destruct (parse_loop prog args empty_args) as [t0 [d | e0]] eqn:E.
  - apply parse_loop_silent in E as Ht. subst t0. rewrite bind_returned.
    destruct d as [[s|] [p|] [w|] [c|] st];
      cbv beta iota delta [server port warning critical starttls];
      try (intros H; inversion H; split; [reflexivity|];
           eexists; reflexivity).
    destruct (w <? c); intros H; inversion H.
    split; [reflexivity|]. eexists; reflexivity.
  - intros H. inversion H. subst. apply (parse_loop_failure _ _ _ _ _ E).
Qed.

(** What [run] leaves behind: the process start first and once, then either
    an exit with OK, WARNING or CRITICAL, where a status line, if any, begins
    with the word of the exit code, or an exception and no status line. *)
Lemma run_shape {A}
    (strptime : string -> option datetime)
    (utf8_decode : string -> option string)
    (communicate : string -> completed) (utcnow : datetime)
    (server : string) (port warning critical : Z) (starttls : option string) :
  exists t o,
    run (A:=A) strptime utf8_decode communicate utcnow
      server port warning critical starttls
    = (Popen (openssl_cmd server port starttls) :: t, o)
    /\ forallb (fun e => negb (is_popen e)) t = true
    /\ ((exists code,
            o = Raise (SystemExit code) /\ 0 <= code <= 2
            /\ forall p e c d, In (PrintStatus p e c d) t ->
                               PREFIXES code = Some p)
        \/ (exists ex,
               o = Raise (Error ex)
               /\ forallb (fun e => negb (is_status_line e)) t = true)).
Proof.
  unfold run. rewrite bind_emit. unfold output, outcome.
  set (cmd := openssl_cmd server port starttls).
  set (proc := communicate cmd).
  assert (Hcrit : 0 <= STATUS_CRITICAL <= 2)
    by (vm_compute; split; discriminate).
  destruct (returncode proc =? 0).
  2:{ do 2 eexists. split; [reflexivity|]. split; [reflexivity|].
      left. exists STATUS_CRITICAL.
      split; [reflexivity|]. split; [exact Hcrit|].
      intros p e c d [H | []]. discriminate H. }
  destruct (utf8_decode (stdout proc)).
  2:{ do 2 eexists. split; [reflexivity|]. split; [reflexivity|].
      right. eexists. split; reflexivity. }
  destruct (regex_match s) as [[b a]|].
  2:{ do 2 eexists. split; [reflexivity|]. split; [reflexivity|].
      left. exists STATUS_CRITICAL.
      split; [reflexivity|]. split; [exact Hcrit|].
      intros p e c d [H | [H | []]]; discriminate H. }
  destruct (strptime b) as [before|].
  2:{ do 2 eexists. split; [reflexivity|]. split; [reflexivity|].
      right. eexists. split; reflexivity. }
  destruct (strptime a) as [after|].
  2:{ do 2 eexists. split; [reflexivity|]. split; [reflexivity|].
      right. eexists. split; reflexivity. }
  destruct (evaluate_cases (A:=A) before after utcnow warning critical)
    as [E | (code & p & msgs & Hp & Hc & Hmsgs & E)]; rewrite E; simpl.
  - do 2 eexists. split; [reflexivity|]. split; [reflexivity|].
    right. eexists. split; reflexivity.
  - do 2 eexists. split; [reflexivity|]. split.
    + rewrite forallb_app. apply andb_true_iff. split; [|reflexivity].
      rewrite forallb_forall in *. intros x Hx. apply Hmsgs in Hx.
      rewrite negb_orb in Hx. apply andb_true_iff in Hx. apply Hx.
    + left. exists code. split; [reflexivity|]. split; [exact Hc|].
      intros p' e c d Hin. apply in_app_or in Hin. destruct Hin as [Hin|Hin].
      * rewrite forallb_forall in Hmsgs. apply Hmsgs in Hin.
        simpl in Hin. discriminate Hin.
      * destruct Hin as [Hin | []]. inversion Hin. subst. exact Hp.
Qed.

(** X9: every run either stops at the validation, where it prints the usage
    text after at most one diagnostic, starts no process and exits with the
    status UNKNOWN, or starts the openssl pipeline for the validated server,
    port and protocol as its first action, starts no second process, and
    exits with OK, WARNING or CRITICAL. *)
Theorem run_validates_or_fetches_once :
  forall (strptime : string -> option datetime)
         (utf8_decode : string -> option string)
         (communicate : string -> completed) (utcnow : datetime)
         (A : Type) (prog : string) (args : list string),
    let m := main (A:=A) strptime utf8_decode communicate utcnow prog args in
    ((output m = usage_text prog
      \/ exists diag, output m = Print diag :: usage_text prog)
     /\ outcome m = Raise (SystemExit STATUS_UNKNOWN))
    \/ (exists a t code,
           checked_args prog args = ([], Return a)
           /\ output m
              = Popen (openssl_cmd (call_server a) (call_port a)
                         (call_starttls a)) :: t
           /\ forallb (fun e => negb (is_popen e)) t = true
           /\ outcome m = Raise (SystemExit code)
           /\ 0 <= code <= 2).
Proof.
  intros strptime utf8_decode communicate utcnow A prog args m. subst m.
  unfold main.
  destruct (help_requested prog args).
  - left. split; [left; reflexivity | reflexivity].
  - destruct (checked_args prog args) as [t0 [a | e]] eqn:E.
    + destruct (checked_args_total prog args)
        as [(a' & E' & _) | (t' & E' & _)]; rewrite E' in E;
        [|discriminate E].
      inversion E. subst t0 a'. clear E. rewrite bind_returned.
      destruct (run_shape (A:=A) strptime utf8_decode communicate utcnow
                  (call_server a) (call_port a) (call_warning a)
                  (call_critical a) (call_starttls a))
        as (t & o & Hrun & Ht & [(code & Ho & Hc & _) | (ex & Ho & _)]);
        rewrite Hrun; subst o; right.
      * exists a, t, code. repeat split; try assumption; apply Hc.
      * exists a, (t ++ [PrintUnhandled prog ex])%list, STATUS_CRITICAL.
        split; [reflexivity|]. split; [reflexivity|]. split.
        -- rewrite forallb_app, Ht. reflexivity.
        -- split; [reflexivity | vm_compute; split; discriminate].
    + destruct (checked_args_failure _ _ _ _ E) as (-> & diag & ->).
      left. split; [right; exists diag; reflexivity | reflexivity].
Qed.

(** X10: the word that begins a status line is the word of the exit code of
    the process.  Whenever a run prints a status line, the process exits
    with the code that [PREFIXES] maps to the first word of that line. *)
Theorem status_word_matches_exit_code :
  forall (strptime : string -> option datetime)
         (utf8_decode : string -> option string)
         (communicate : string -> completed) (utcnow : datetime)
         (A : Type) (prog : string) (args : list string)
         (prefix : string) (expires : datetime) (clause : option datetime)
         (days : Q),
    let m := main (A:=A) strptime utf8_decode communicate utcnow prog args in
    In (PrintStatus prefix expires clause days) (output m) ->
    exists code,
      outcome m = Raise (SystemExit code) /\ PREFIXES code = Some prefix.
Proof.
  intros strptime utf8_decode communicate utcnow A prog args
    prefix expires clause days m. subst m.
  destruct (main_cases strptime utf8_decode communicate utcnow (A:=A)
              prog args) as [[_ Hno] | (a & _ & _ & Hm)].
  - intros Hin. rewrite forallb_forall in Hno. apply Hno in Hin.
    simpl in Hin. discriminate Hin.
  - rewrite Hm.
    destruct (run_shape (A:=A) strptime utf8_decode communicate utcnow
                (call_server a) (call_port a) (call_warning a)
                (call_critical a) (call_starttls a))
      as (t & o & Hrun & _ & [(code & Ho & _ & Hp) | (ex & Ho & Hno)]);
      rewrite Hrun; subst o; unfold output, outcome; simpl.
    + intros [H | Hin]; [discriminate H|].
      exists code. split; [reflexivity | exact (Hp _ _ _ _ Hin)].
    + intros [H | Hin]; [discriminate H|].
      apply in_app_or in Hin. destruct Hin as [Hin | [H | []]];
        [|discriminate H].
      rewrite forallb_forall in Hno. apply Hno in Hin.
      simpl in Hin. discriminate Hin.
Qed.

Lemma status_word_matches_exit_code_witness :
  In (PrintStatus "OK" (midnight 741078) None
        (perf_data_days (3287 * US_PER_DAY)))
     (output (main (A:=unit) sample_strptime ascii_decode sample_server
                (midnight 737791) sample_prog
                ["-s"; "example.org"; "-p"; "443"; "-w"; "30"; "-c"; "7"])) /\
  exists code,
    outcome (main (A:=unit) sample_strptime ascii_decode sample_server
               (midnight 737791) sample_prog
               ["-s"; "example.org"; "-p"; "443"; "-w"; "30"; "-c"; "7"])
    = Raise (SystemExit code) /\ PREFIXES code = Some "OK".
Proof.
  assert (H : In (PrintStatus "OK" (midnight 741078) None
                    (perf_data_days (3287 * US_PER_DAY)))
                 (output (main (A:=unit) sample_strptime ascii_decode
                            sample_server (midnight 737791) sample_prog
                            ["-s"; "example.org"; "-p"; "443";
                             "-w"; "30"; "-c"; "7"])))
    by (right; left; reflexivity).
  split; [exact H|].
  exact (status_word_matches_exit_code sample_strptime ascii_decode
           sample_server (midnight 737791) unit sample_prog _ _ _ _ _ H).
Defined.

Lemma evaluate_exits_in_range {A} (before after now warning critical : Z) :
  in_delta_range warning -> in_delta_range critical ->
  exists code,
    outcome (evaluate (A:=A) before after now warning critical)
    = Raise (SystemExit code).
Proof.
  intros Hw Hc. unfold evaluate.
  destruct (before <=? now); [|eexists; reflexivity].
  destruct (after >=? now); [|eexists; reflexivity].
  rewrite (timedelta_days_in_range _ Hw), bind_ret.
  destruct (after - now <=? warning * US_PER_DAY); [|eexists; reflexivity].
  rewrite (timedelta_days_in_range _ Hc), bind_ret.
  destruct (after - now <=? critical * US_PER_DAY); eexists; reflexivity.
Qed.

(** X11: a fetch that succeeds hands over to the evaluation.  When the
    arguments pass the validation, the pipeline returns 0, its output
    decodes and matches the pattern, both dates parse and both thresholds are
    in the range of [timedelta], the run consists of the process start
    followed by the events of the evaluation of the two dates at the current
    time, and it ends as the evaluation ends. *)
Theorem successful_fetch_is_evaluated :
  forall (strptime : string -> option datetime)
         (utf8_decode : string -> option string)
         (communicate : string -> completed) (utcnow : datetime)
         (A : Type) (prog : string) (args : list string) (a : run_call)
         (text group_before group_after : string) (before after : datetime),
    let cmd := openssl_cmd (call_server a) (call_port a) (call_starttls a) in
    let e := evaluate (A:=A) before after utcnow
               (call_warning a) (call_critical a) in
    help_requested prog args = false ->
    checked_args prog args = ([], Return a) ->
    returncode (communicate cmd) = 0 ->
    utf8_decode (stdout (communicate cmd)) = Some text ->
    regex_match text = Some (group_before, group_after) ->
    strptime group_before = Some before ->
    strptime group_after = Some after ->
    in_delta_range (call_warning a) ->
    in_delta_range (call_critical a) ->
    main (A:=A) strptime utf8_decode communicate utcnow prog args
    = (Popen cmd :: output e, outcome e).
Proof.
  intros strptime utf8_decode communicate utcnow A prog args a text gb ga
    before after cmd e Hh Hargs Hrc Hdec Hre Hb Ha Hw Hc.
  unfold main. rewrite Hh, Hargs, bind_returned.
  unfold run. fold cmd. rewrite Hrc, Hdec, Hre, Hb, Ha. fold e.
  rewrite bind_emit. simpl Z.eqb. cbv iota.
  destruct (evaluate_exits_in_range (A:=A) before after utcnow _ _ Hw Hc)
    as [code Hcode]. fold e in Hcode.
  unfold outcome in *. destruct e as [t o]. simpl in Hcode. subst o.
  reflexivity.
Qed.

Lemma successful_fetch_is_evaluated_witness :
  main (A:=unit) sample_strptime ascii_decode sample_server (midnight 741061)
    sample_prog ["-s"; "example.org"; "-p"; "443"; "-w"; "30"; "-c"; "7"]
  = (Popen (openssl_cmd "example.org" 443 None)
       :: output (evaluate (A:=unit) (midnight 737425) (midnight 741078)
                    (midnight 741061) 30 7),
     outcome (evaluate (A:=unit) (midnight 737425) (midnight 741078)
                (midnight 741061) 30 7)).
Proof.
  apply (successful_fetch_is_evaluated sample_strptime ascii_decode
           sample_server (midnight 741061) unit sample_prog
           ["-s"; "example.org"; "-p"; "443"; "-w"; "30"; "-c"; "7"]
           (mk_call "example.org" 443 30 7 None) sample_dates
           "Jan  1 00:00:00 2020 GMT" "Jan  1 00:00:00 2030 GMT"
           (midnight 737425) (midnight 741078));
    try reflexivity; vm_compute; split; discriminate.
Defined.

(** X12: output of the pipeline that is not UTF-8 is no parse error of the
    script: [UnicodeDecodeError] reaches the catch-all handler, which reports
    it, and the process exits CRITICAL; neither the raw output nor a status
    line is printed. *)
Theorem undecodable_output_is_unhandled :
  forall (strptime : string -> option datetime)
         (utf8_decode : string -> option string)
         (communicate : string -> completed) (utcnow : datetime)
         (A : Type) (prog server : string) (port warning critical : Z)
         (starttls : option string),
    let cmd := openssl_cmd server port starttls in
    returncode (communicate cmd) = 0 ->
    utf8_decode (stdout (communicate cmd)) = None ->
    try_except
      (run (A:=A) strptime utf8_decode communicate utcnow
         server port warning critical starttls)
      (unhandled prog)
    = ([Popen cmd; PrintUnhandled prog UnicodeDecodeError],
       Raise (SystemExit STATUS_CRITICAL)).
Proof.
  intros strptime utf8_decode communicate utcnow A prog server port warning
    critical starttls cmd Hrc Hdec.
  unfold run. fold cmd. rewrite Hrc, Hdec. reflexivity.
Qed.

Lemma undecodable_output_is_unhandled_witness :
  try_except
    (run (A:=unit) sample_strptime (fun _ : string => None) sample_server
       (midnight 737791) "example.org" 443 30 7 None)
    (unhandled sample_prog)
  = ([Popen (openssl_cmd "example.org" 443 None);
      PrintUnhandled sample_prog UnicodeDecodeError],
     Raise (SystemExit STATUS_CRITICAL)).
Proof.
  apply (undecodable_output_is_unhandled sample_strptime
           (fun _ : string => None) sample_server (midnight 737791) unit
           sample_prog "example.org" 443 30 7 None); reflexivity.
Defined.

Lemma unparsable_dates_are_unhandled_witness :
  try_except
    (run (A:=unit) (fun _ : string => None) ascii_decode sample_server
       (midnight 737791) "example.org" 443 30 7 None)
    (unhandled sample_prog)
  = ([Popen (openssl_cmd "example.org" 443 None);
      PrintUnhandled sample_prog ValueError],
     Raise (SystemExit STATUS_CRITICAL)).
Proof.
  apply (unparsable_dates_are_unhandled (fun _ : string => None) ascii_decode
           sample_server (midnight 737791) unit sample_prog
           "example.org" 443 30 7 None sample_dates
           "Jan  1 00:00:00 2020 GMT" "Jan  1 00:00:00 2030 GMT");
    try reflexivity. left. reflexivity.
Defined.

(** ** Decimal numerals on the command line *)









(** ** More on the pattern and on the seconds *)

Lemma string_app_assoc (s1 s2 s3 : string) :
  (s1 ++ s2) ++ s3 = s1 ++ (s2 ++ s3).
Proof. induction s1 as [|c s1 IH]; simpl; [|rewrite IH]; reflexivity. Qed.

(** X14: what follows the two date lines is ignored.  Once the pattern
    matches a text, it matches every extension of the text with the same two
    groups, so further lines of output never lead to the message of line
    148. *)
Theorem regex_match_ignores_rest :
  forall (text extra before after : string),
    regex_match text = Some (before, after) ->
    regex_match (text ++ extra) = Some (before, after).
Proof.
  unfold regex_match. intros text extra before after.
  destruct (strip_prefix "notBefore=" text) as [r1|] eqn:E1;
    [|intros H; discriminate H].
  destruct (split_line r1) as [[b r2]|] eqn:E2; [|intros H; discriminate H].
  destruct (strip_prefix "notAfter=" r2) as [r3|] eqn:E3;
    [|intros H; discriminate H].
  destruct (split_line r3) as [[a r4]|] eqn:E4; [|intros H; discriminate H].
  intros H. inversion H. subst b a.
  apply strip_prefix_spec in E1. apply split_line_spec in E2.
  apply strip_prefix_spec in E3. apply split_line_spec in E4.
  destruct E2 as [E2 Hb]. destruct E4 as [E4 Ha].
  assert (F1 : strip_prefix "notBefore=" (text ++ extra) = Some (r1 ++ extra)).
  { apply strip_prefix_spec. rewrite E1. apply string_app_assoc. }
  assert (F2 : split_line (r1 ++ extra) = Some (before, r2 ++ extra)).
  { apply split_line_spec. split; [|exact Hb].
    rewrite E2, !string_app_assoc. reflexivity. }
  assert (F3 : strip_prefix "notAfter=" (r2 ++ extra) = Some (r3 ++ extra)).
  { apply strip_prefix_spec. rewrite E3. apply string_app_assoc. }
  assert (F4 : split_line (r3 ++ extra) = Some (after, r4 ++ extra)).
  { apply split_line_spec. split; [|exact Ha].
    rewrite E4, !string_app_assoc. reflexivity. }
  rewrite F1, F2, F3, F4. reflexivity.
Qed.

Lemma regex_match_ignores_rest_witness :
  regex_match sample_dates
  = Some ("Jan  1 00:00:00 2020 GMT", "Jan  1 00:00:00 2030 GMT") /\
  regex_match (sample_dates ++ sample_dates)
  = Some ("Jan  1 00:00:00 2020 GMT", "Jan  1 00:00:00 2030 GMT").
Proof.
  assert (H : regex_match sample_dates
              = Some ("Jan  1 00:00:00 2020 GMT", "Jan  1 00:00:00 2030 GMT"))
    by reflexivity.
  split; [exact H|].
  exact (regex_match_ignores_rest sample_dates sample_dates _ _ H).
Defined.

(** X15: the seconds computed without [total_seconds] (lines 180-182), read
    with true division, are the seconds [total_seconds] returns, for
    positive and negative durations alike: the fields of a [timedelta], with
    [0 <= seconds < 86400] and [0 <= microseconds < 10**6], add up to the
    duration. *)
Theorem fallback_seconds_agree :
  forall td : timedelta,
    0 <= td_seconds td < 86400 /\
    0 <= td_microseconds td < 10 ^ 6 /\
    td_microseconds td
    + (td_seconds td + td_days td * 24 * 3600) * 10 ^ 6 = td /\
    (inject_Z (td_microseconds td
               + (td_seconds td + td_days td * 24 * 3600) * 10 ^ 6)
     / inject_Z (10 ^ 6))%Q = total_seconds td.
Proof.
  intros td. split; [|split; [|split]].
  - unfold td_seconds, US_PER_DAY.
    Z.to_euclidean_division_equations. lia.
  - unfold td_microseconds. change (10 ^ 6) with 1000000.
    Z.to_euclidean_division_equations. lia.
  - apply timedelta_fields.
  - rewrite timedelta_fields. reflexivity.
Qed.

(** X18: the verdict depends on the three times only through their
    differences.  Shifting [notBefore], [notAfter] and the current time by
    the same amount leaves the exit status unchanged. *)
Theorem status_shift_invariant :
  forall (A : Type) (before after now warning critical shift : Z),
    process_status
      (evaluate (A:=A) (before + shift) (after + shift) (now + shift)
         warning critical)
    = process_status (evaluate (A:=A) before after now warning critical).
Proof.
  intros A before after now warning critical shift.
  rewrite !process_status_evaluate.
  replace (before + shift <=? now + shift) with (before <=? now)
    by (destruct (before <=? now) eqn:E1;
        destruct (before + shift <=? now + shift) eqn:E2; try reflexivity;
        [apply Z.leb_le in E1; apply Z.leb_gt in E2
        |apply Z.leb_gt in E1; apply Z.leb_le in E2]; lia).
  replace (after + shift >=? now + shift) with (after >=? now)
    by (rewrite !Z.geb_leb;
        destruct (now <=? after) eqn:E1;
        destruct (now + shift <=? after + shift) eqn:E2; try reflexivity;
        [apply Z.leb_le in E1; apply Z.leb_gt in E2
        |apply Z.leb_gt in E1; apply Z.leb_le in E2]; lia).
  replace (after + shift - (now + shift)) with (after - now) by lia.
  reflexivity.
Qed.

(** Closes a case in which the exit is neither OK nor WARNING. *)
Ltac stricter_exit Hc :=
  let H := fresh "H" in
  simpl; intros H; inversion H; subst;
  destruct Hc as [Hc | Hc]; discriminate Hc.

(** X19: an exit with OK or WARNING always comes with its status line.
    When the process exits with the code 0 or 1, its output is the start of
    the pipeline followed by exactly one status line, which begins with the
    word of that code and has no clause [Not valid until]. *)
Theorem lenient_exit_prints_status_line :
  forall (strptime : string -> option datetime)
         (utf8_decode : string -> option string)
         (communicate : string -> completed) (utcnow : datetime)
         (A : Type) (prog : string) (args : list string) (code : Z),
    let m := main (A:=A) strptime utf8_decode communicate utcnow prog args in
    outcome m = Raise (SystemExit code) ->
    code = STATUS_OK \/ code = STATUS_WARNING ->
    exists cmd prefix expires days,
      PREFIXES code = Some prefix /\
      output m = [Popen cmd; PrintStatus prefix expires None days].
Proof.
  intros strptime utf8_decode communicate utcnow A prog args code m Hout Hc.
  subst m.
  destruct (main_cases strptime utf8_decode communicate utcnow (A:=A)
              prog args) as [[Hl _] | (a & _ & _ & Hm)].
  - rewrite Hl in Hout. inversion Hout. subst code.
    destruct Hc as [Hc | Hc]; discriminate Hc.
  - rewrite Hm in *. clear Hm. revert Hout.
    unfold run. rewrite bind_emit. unfold output, outcome.
    set (cmd := openssl_cmd (call_server a) (call_port a) (call_starttls a)).
    set (proc := communicate cmd).
    destruct (returncode proc =? 0);
      [|stricter_exit Hc].
    destruct (utf8_decode (stdout proc));
      [|stricter_exit Hc].
    destruct (regex_match s) as [[gb ga]|];
      [|stricter_exit Hc].
    destruct (strptime gb) as [before|];
      [|stricter_exit Hc].
    destruct (strptime ga) as [after|];
      [|stricter_exit Hc].
    unfold evaluate, timedelta_days.
    destruct (before <=? utcnow);
      [|stricter_exit Hc].
    destruct (after >=? utcnow);
      [|stricter_exit Hc].
    destruct (delta_ok (call_warning a));
      [|stricter_exit Hc].
    rewrite bind_ret.
    destruct (after - utcnow <=? call_warning a * US_PER_DAY).
    + destruct (delta_ok (call_critical a));
        [|stricter_exit Hc].
      rewrite bind_ret.
      destruct (after - utcnow <=? call_critical a * US_PER_DAY);
        simpl; intros H; inversion H; subst code.
      * destruct Hc as [Hc | Hc]; discriminate Hc.
      * do 4 eexists. split; reflexivity.
    + simpl; intros H; inversion H; subst code.
      do 4 eexists. split; reflexivity.
Qed.

Lemma lenient_exit_prints_status_line_witness :
  outcome (main (A:=unit) sample_strptime ascii_decode sample_server
             (midnight 741061) sample_prog
             ["-s"; "example.org"; "-p"; "443"; "-w"; "30"; "-c"; "7"])
  = Raise (SystemExit 1) /\
  (1 = STATUS_OK \/ 1 = STATUS_WARNING) /\
  exists cmd prefix expires days,
    PREFIXES 1 = Some prefix /\
    output (main (A:=unit) sample_strptime ascii_decode sample_server
              (midnight 741061) sample_prog
              ["-s"; "example.org"; "-p"; "443"; "-w"; "30"; "-c"; "7"])
    = [Popen cmd; PrintStatus prefix expires None days].
Proof.
  assert (H1 : outcome (main (A:=unit) sample_strptime ascii_decode
                          sample_server (midnight 741061) sample_prog
                          ["-s"; "example.org"; "-p"; "443";
                           "-w"; "30"; "-c"; "7"])
               = Raise (SystemExit 1)) by reflexivity.
  assert (H2 : 1 = STATUS_OK \/ 1 = STATUS_WARNING) by (right; reflexivity).
  split; [exact H1|]. split; [exact H2|].
  exact (lenient_exit_prints_status_line sample_strptime ascii_decode
           sample_server (midnight 741061) unit sample_prog _ 1 H1 H2).
Defined.
